(** * Medicine forecast dashboard: the data pipeline of [app.py]

    A shallow embedding of the loader ([load_data]) and of the four pages of
    the dashboard, with the theorems about the filters, aggregations and
    sorts the pages perform.

    Modelling choices, once and for all:
    - a data frame is a list of column names and a list of typed rows; a
      cell of a column the frame does not list is never read;
    - a missing cell ([NaN], [NaT], an empty CSV field) is [None];
    - numeric columns are columns of integers, which pandas holds as
      [int64]: a cell is an integer ([Z]) and sums wrap around at 64 bits;
      columns of floating-point numbers are not modelled;
    - strings are byte strings, ordered byte by byte, which for UTF-8 text
      is Python's code point order;
    - the parts of pandas the program calls but does not define (date and
      number parsing, the unstable single-key sort) are the fields of the
      class [Pandas]; every theorem holds for every instance. *)

From Stdlib Require Import ZArith List String Ascii Bool Lia.
From Stdlib Require Import Permutation Sorting.Sorted OrdersEx RelationClasses.
From Stdlib Require Decimal DecimalString.
Import ListNotations.
Local Open Scope string_scope.
Local Open Scope Z_scope.

Set Implicit Arguments.

(* ================================================================= *)
(** ** Strings as ordered keys *)

Definition str_ltb (a b : string) : bool :=
  match String_as_OT.compare a b with Lt => true | _ => false end.

Definition str_leb (a b : string) : bool := negb (str_ltb b a).

(* ================================================================= *)
(** ** A stable sort, the model of [np.lexsort] and of sorting group keys *)

Section StableSort.
Variable A : Type.
Variable leb : A -> A -> bool.

Fixpoint insert (x : A) (l : list A) : list A :=
  match l with
  | [] => [x]
  | y :: l' => if leb x y then x :: l else y :: insert x l'
  end.

Fixpoint stable_sort (l : list A) : list A :=
  match l with
  | [] => []
  | x :: l' => insert x (stable_sort l')
  end.
End StableSort.

(** Removing later duplicates, keeping first occurrences in order
    ([Series.unique], and the distinct keys of a [groupby]). *)
Fixpoint unique (A : Type) (eqb : A -> A -> bool) (l : list A) : list A :=
  match l with
  | [] => []
  | x :: l' => x :: filter (fun y => negb (eqb x y)) (unique eqb l')
  end.

(** [Series.dropna] on a column of nullable cells. *)
Fixpoint dropna (A : Type) (l : list (option A)) : list A :=
  match l with
  | [] => []
  | Some x :: l' => x :: dropna l'
  | None :: l' => dropna l'
  end.

(** The 64-bit signed integer an integer stands for: what [numpy] keeps of
    the result of an [int64] operation, which wraps around without notice. *)
Definition wrap64 (z : Z) : Z := (z + 2 ^ 63) mod 2 ^ 64 - 2 ^ 63.

(** [Series.sum] on a column of integers ([int64]): missing cells are
    skipped and the additions wrap around. *)
Definition sum (l : list (option Z)) : Z :=
  wrap64 (fold_right Z.add 0 (dropna l)).

(** [Series.nunique], which does not count missing cells. *)
Definition nunique (l : list (option string)) : Z :=
  Z.of_nat (List.length (unique String.eqb (dropna l))).

(* ================================================================= *)
(** ** Cells, timestamps, frames *)

(** A cell of a column whose type [read_csv] did not settle. *)
Inductive cell : Type :=
| NaN
| Int (z : Z)
| Str (s : string).

Record Timestamp : Type := { ts_year : Z; ts_month : Z; ts_day : Z }.

Record frame (R : Type) : Type := { columns : list string; rows : list R }.

(** ["c" in df.columns] *)
Definition has_column (R : Type) (c : string) (df : frame R) : bool :=
  existsb (String.eqb c) (columns df).

(** [df[c] = ...]: the column list after an assignment to column [c]. *)
Definition set_column (c : string) (cols : list string) : list string :=
  if existsb (String.eqb c) cols then cols else cols ++ [c].

(** The medication summary as [read_csv] returns it. *)
Module MedsCsv.
Record row : Type := {
  DESCRIPTION : option string;
  Month : cell;
  Year : option Z;
  DISPENSES : option Z;
  TOTALCOST : option Z;
  ENCOUNTERCLASS : option string
}.
End MedsCsv.

(** The medication summary as [load_data] returns it. *)
Module Meds.
Record row : Type := {
  DESCRIPTION : option string;
  Month : option Timestamp;
  Year : option Z;
  DISPENSES : option Z;
  TOTALCOST : option Z;
  ENCOUNTERCLASS : option string
}.
End Meds.

(** The actual/forecast series as [read_csv] returns it. *)
Module AfcCsv.
Record row : Type := {
  Medicine : option string;
  Year : cell;
  Type_ : option string;
  Value : option Z
}.
End AfcCsv.

(** The actual/forecast series as [load_data] returns it. *)
Module Afc.
Record row : Type := {
  Medicine : option string;
  Year : option Z;
  Type_ : option string;
  Value : option Z
}.
End Afc.

(* ================================================================= *)
(** ** The pandas routines the program relies on *)

Class Pandas : Type := {
  (** [pd.to_datetime(col, errors="coerce")]: a column of cells to a column
      of timestamps, [None] where the cell is no date. *)
  to_datetime : list cell -> list (option Timestamp);
  to_datetime_length :
    forall col, List.length (to_datetime col) = List.length col;
  (** The number a text cell denotes for [pd.to_numeric], if any. *)
  parse_number : string -> option Z;
  (** The single-key sort ([kind="quicksort"]): ascending in the key, the
      order among equal keys left to the library. *)
  quicksort : forall A : Type, (A -> Z) -> list A -> list A;
  quicksort_Permutation :
    forall (A : Type) (key : A -> Z) l, Permutation l (quicksort key l);
  quicksort_Sorted :
    forall (A : Type) (key : A -> Z) l,
      Sorted (fun a b => key a <= key b) (quicksort key l)
}.

(** [pd.to_numeric(col, errors="coerce")] on one cell. *)
Definition to_numeric `{Pandas} (c : cell) : option Z :=
  match c with
  | NaN => None
  | Int z => Some z
  | Str s => parse_number s
  end.

(** [(col >= 2020) & (col <= 2025)] on one cell; a missing cell compares
    false. *)
Definition in_range (y : option Z) : bool :=
  match y with
  | Some z => (2020 <=? z) && (z <=? 2025)
  | None => false
  end.

(* ================================================================= *)
(** ** The loader ([load_data], lines 12-32)

    [load_meds] and [load_afc] are the two halves of the body of
    [load_data], one per table; [load_data_body] below runs both. *)

Section Loader.
Context `{Pandas}.

(** [meds["Month"] = to_datetime(...); meds["Year"] = meds["Month"].dt.year] *)
Definition with_year (r : MedsCsv.row) (t : option Timestamp) : Meds.row :=
  {| Meds.DESCRIPTION := MedsCsv.DESCRIPTION r;
     Meds.Month := t;
     Meds.Year := option_map ts_year t;
     Meds.DISPENSES := MedsCsv.DISPENSES r;
     Meds.TOTALCOST := MedsCsv.TOTALCOST r;
     Meds.ENCOUNTERCLASS := MedsCsv.ENCOUNTERCLASS r |}.

(** A row of a frame without a [Month] column, as it is. *)
Definition as_read (r : MedsCsv.row) : Meds.row :=
  {| Meds.DESCRIPTION := MedsCsv.DESCRIPTION r;
     Meds.Month := None;
     Meds.Year := MedsCsv.Year r;
     Meds.DISPENSES := MedsCsv.DISPENSES r;
     Meds.TOTALCOST := MedsCsv.TOTALCOST r;
     Meds.ENCOUNTERCLASS := MedsCsv.ENCOUNTERCLASS r |}.

Definition parsed_rows (rs : list MedsCsv.row) : list Meds.row :=
  map (fun p => with_year (fst p) (snd p))
      (combine rs (to_datetime (map MedsCsv.Month rs))).

Definition load_meds (csv : frame MedsCsv.row) : frame Meds.row :=
  if has_column "Month" csv then
    {| columns := set_column "Year" (columns csv);
       rows := filter (fun r => in_range (Meds.Year r))
                      (parsed_rows (rows csv)) |}
  else
    {| columns := columns csv; rows := map as_read (rows csv) |}.

(** [afc["Year"] = to_numeric(afc["Year"], errors="coerce")] *)
Definition coerce_year (r : AfcCsv.row) : Afc.row :=
  {| Afc.Medicine := AfcCsv.Medicine r;
     Afc.Year := to_numeric (AfcCsv.Year r);
     Afc.Type_ := AfcCsv.Type_ r;
     Afc.Value := AfcCsv.Value r |}.

(** A row of a frame without a [Year] column, as it is. *)
Definition as_read_afc (r : AfcCsv.row) : Afc.row :=
  {| Afc.Medicine := AfcCsv.Medicine r;
     Afc.Year := None;
     Afc.Type_ := AfcCsv.Type_ r;
     Afc.Value := AfcCsv.Value r |}.

Definition load_afc (csv : frame AfcCsv.row) : frame Afc.row :=
  if has_column "Year" csv then
    {| columns := columns csv;
       rows := filter (fun r => in_range (Afc.Year r))
                      (map coerce_year (rows csv)) |}
  else
    {| columns := columns csv; rows := map as_read_afc (rows csv) |}.
End Loader.

(* ================================================================= *)
(** ** The process: two CSV files and the cache of [st.cache_data] *)

Record world : Type := {
  medication_summary_csv : frame MedsCsv.row;
  actual_forecast_combined_csv : frame AfcCsv.row;
  cache_data : option (frame Meds.row * frame Afc.row)
}.

Definition io (A : Type) : Type := world -> A * world.

Definition ret (A : Type) (a : A) : io A := fun w => (a, w).

Definition bind (A B : Type) (m : io A) (k : A -> io B) : io B :=
  fun w => let (a, w') := m w in k a w'.

Notation "x <- m ;; k" := (bind m (fun x => k))
  (at level 61, m at next level, right associativity).

(** [pd.read_csv("medication_summary.csv")] *)
Definition read_medication_summary : io (frame MedsCsv.row) :=
  fun w => (medication_summary_csv w, w).

(** [pd.read_csv("actual_forecast_combined.csv")] *)
Definition read_actual_forecast_combined : io (frame AfcCsv.row) :=
  fun w => (actual_forecast_combined_csv w, w).

(** [@st.cache_data]: the first call runs the function and stores its
    result, later calls return the stored result. *)
Definition st_cache_data (f : io (frame Meds.row * frame Afc.row))
  : io (frame Meds.row * frame Afc.row) :=
  fun w =>
    match cache_data w with
    | Some v => (v, w)
    | None =>
        let (v, w') := f w in
        (v, {| medication_summary_csv := medication_summary_csv w';
               actual_forecast_combined_csv := actual_forecast_combined_csv w';
               cache_data := Some v |})
    end.

Section LoadData.
Context `{Pandas}.

(** The body of [load_data], without its decorator. *)
Definition load_data_body : io (frame Meds.row * frame Afc.row) :=
  meds <- read_medication_summary ;;
  afc <- read_actual_forecast_combined ;;
  ret (load_meds meds, load_afc afc).

Definition load_data : io (frame Meds.row * frame Afc.row) :=
  st_cache_data load_data_body.
End LoadData.

(* ================================================================= *)
(** ** Group-by and sorting

    [groupby] with its defaults: rows with a missing key belong to no group
    ([dropna=True]) and the groups come in ascending key order
    ([sort=True]). *)

Definition is_some (A : Type) (o : option A) : bool :=
  match o with Some _ => true | None => false end.

Section GroupBy.
Variables R K : Type.
Variables eqb leb : K -> K -> bool.
Variable key : R -> option K.

(** The group keys: distinct, missing keys dropped, ascending. *)
Definition groupby_keys (df : list R) : list K :=
  stable_sort leb (unique eqb (dropna (map key df))).

(** The rows of one group, in frame order. *)
Definition group (k : K) (df : list R) : list R :=
  filter (fun r => match key r with Some k' => eqb k' k | None => false end)
         df.

(** [df.groupby(key)[val].sum()] *)
Definition groupby_sum (val : R -> option Z) (df : list R) : list (K * Z) :=
  map (fun k => (k, sum (map val (group k df)))) (groupby_keys df).

(** [df.groupby(key)[val].nunique()] *)
Definition groupby_nunique (val : R -> option string) (df : list R)
  : list (K * Z) :=
  map (fun k => (k, nunique (map val (group k df)))) (groupby_keys df).
End GroupBy.

Section Sorting.
Context `{Pandas}.

(** [sort_values] on one key: the rows with a key sorted by the library's
    sort (for a descending sort, on the reversed rows and reversed again),
    the rows without a key last. *)
Definition nargsort (A : Type) (key : A -> option Z) (ascending : bool)
           (l : list A) : list A :=
  let non_nans := filter (fun a => is_some (key a)) l in
  let nans := filter (fun a => negb (is_some (key a))) l in
  let k := fun a => match key a with Some z => z | None => 0 end in
  (if ascending then quicksort k non_nans
   else rev (quicksort k (rev non_nans))) ++ nans.
End Sorting.

Definition pair_eqb (a b : string * string) : bool :=
  String.eqb (fst a) (fst b) && String.eqb (snd a) (snd b).

Definition pair_leb (a b : string * string) : bool :=
  str_ltb (fst a) (fst b) || (String.eqb (fst a) (fst b) && str_leb (snd a) (snd b)).

(** [sort_values(["ENCOUNTERCLASS", "DISPENSES"], ascending=[True, False])]
    compares two rows of the grouped table this way. *)
Definition dept_leb (a b : (string * string) * Z) : bool :=
  str_ltb (fst (fst a)) (fst (fst b))
  || (String.eqb (fst (fst a)) (fst (fst b)) && (snd b <=? snd a)).

(* ================================================================= *)
(** ** What a page shows *)

(** One bar of [px.bar(df, x=..., y=..., color=...)]: what the figure reads
    from one row of [df]. *)
Record bar : Type := { bar_x : cell; bar_y : cell; bar_color : option cell }.

Inductive element : Type :=
| title (body : string)
| subheader (body : string)
| markdown (body : string)
| write (body : string)
| info (body : string)
| metric (label value : string)
| selectbox_widget (label : string) (options : list string)
| plotly_chart (fig : list bar)
| dataframe (header : list string) (body : list (list cell)).

(** A computation either gives its value or stops on an exception: the
    [KeyError] pandas raises for a column that is not there, the
    [ValueError] plotly raises for one. *)
Inductive result (A : Type) : Type :=
| Ok (a : A)
| KeyError (column : string)
| ValueError (column : string).
Arguments KeyError {A} column.
Arguments ValueError {A} column.

Definition of_num (c : option Z) : cell :=
  match c with Some z => Int z | None => NaN end.

Definition of_str (c : option string) : cell :=
  match c with Some s => Str s | None => NaN end.

Definition px_bar (R : Type) (x y : R -> cell) (color : option (R -> cell))
           (df : list R) : list bar :=
  map (fun r => {| bar_x := x r; bar_y := y r;
                   bar_color := option_map (fun c => c r) color |}) df.

(** [df.head(n)] *)
Definition head (A : Type) (n : nat) (l : list A) : list A := firstn n l.

(** [int(x)] of a number that is an integer already. *)
Definition int (x : Z) : Z := x.

Definition digits (n : Z) : string :=
  DecimalString.NilEmpty.string_of_uint (N.to_uint (Z.abs_N n)).

Definition sign (n : Z) : string := if n <? 0 then "-" else "".

(** A comma after every third digit, on the digits from the right. *)
Fixpoint group3 (l : list ascii) : list ascii :=
  match l with
  | a :: b :: c :: ((_ :: _) as more) =>
      a :: b :: c :: ","%char :: group3 more
  | _ => l
  end.

(** [f"{n}"] *)
Definition format_int (n : Z) : string := sign n ++ digits n.

(** [f"{n:,}"] *)
Definition format_comma (n : Z) : string :=
  sign n ++
  string_of_list_ascii
    (List.rev (group3 (List.rev (list_ascii_of_string (digits n))))).

(** [series.isin(values)] on one cell. *)
Definition isin (c : option string) (values : list string) : bool :=
  match c with
  | Some s => existsb (String.eqb s) values
  | None => false
  end.

(** [series == value] on one cell; a missing cell or a missing value
    compares false. *)
Definition eq_cell (c v : option string) : bool :=
  match c, v with
  | Some a, Some b => String.eqb a b
  | _, _ => false
  end.

(** [sorted(names)] on strings. *)
Definition sorted (l : list string) : list string := stable_sort str_leb l.

(** [st.sidebar.selectbox(label, options, key=...)]: the option the session
    holds under the key, none when there is no such option. *)
Definition selectbox (options : list string) (index : nat) : option string :=
  nth_error options index.

(* ================================================================= *)
(** ** Running a page

    A page is a script: it shows its elements one after the other and stops
    at the first exception, which leaves on the screen what was shown
    before. A script takes the elements shown so far and returns them with
    those it has added, and its value or the exception. *)

Definition script (A : Type) : Type := list element -> list element * result A.

Definition finish (A : Type) (a : A) : script A := fun shown => (shown, Ok a).

Definition and_then (A B : Type) (m : script A) (k : A -> script B)
  : script B :=
  fun shown =>
    match m shown with
    | (shown', Ok a) => k a shown'
    | (shown', KeyError c) => (shown', KeyError c)
    | (shown', ValueError c) => (shown', ValueError c)
    end.

(** Statements one after the other. *)
Fixpoint steps (l : list (script unit)) : script unit :=
  match l with
  | [] => finish tt
  | m :: l' => and_then m (fun _ => steps l')
  end.

(** [st.title], [st.metric], [st.plotly_chart], ...: one more element. *)
Definition show (e : element) : script unit :=
  fun shown => ((shown ++ [e])%list, Ok tt).

Definition show_all (es : list element) : script unit :=
  fun shown => ((shown ++ es)%list, Ok tt).

(** [df[c]], and [c] as a group-by key or as the column of a group-by:
    [KeyError] when the frame has no column [c]. *)
Definition column (R : Type) (c : string) (df : frame R) : script unit :=
  fun shown => (shown, if has_column c df then Ok tt else KeyError c).

(** [c] as an argument of [px.bar]: [ValueError] when the frame has no
    column [c]. *)
Definition px_column (R : Type) (c : string) (df : frame R) : script unit :=
  fun shown => (shown, if has_column c df then Ok tt else ValueError c).

(** The result of a computation that shows nothing. *)
Definition lift (A : Type) (r : result A) : script A := fun shown => (shown, r).

(** A page run on an empty screen. *)
Definition run (A : Type) (m : script A) : list element * result A := m [].

(* ================================================================= *)
(** ** Page 1: Dashboard Overview (lines 55-94) *)

Module DashboardOverview.
Section Page.
Context `{Pandas}.
Variable meds : frame Meds.row.

Definition has_total_cost : bool := has_column "TOTALCOST" meds.

Definition total_dispenses : Z := sum (map Meds.DISPENSES (rows meds)).
Definition unique_meds : Z := nunique (map Meds.DESCRIPTION (rows meds)).
Definition total_cost : option Z :=
  if has_total_cost then Some (sum (map Meds.TOTALCOST (rows meds)))
  else None.

Definition metrics : list element :=
  [ metric "Total Medicines Dispensed" (format_comma (int total_dispenses));
    metric "Unique Medicines" (format_comma unique_meds);
    match total_cost with
    | Some c => metric "Total Cost of Medicines" ("$" ++ format_comma (int c))
    | None => metric "Total Cost of Medicines" "N/A"
    end ].

(** Top 5 medicines by total dispenses. *)
Definition top_meds : list string :=
  map fst
      (head 5
         (nargsort (fun p => Some (snd p)) false
            (groupby_sum String.eqb str_leb Meds.DESCRIPTION Meds.DISPENSES
                         (rows meds)))).

Definition meds_top : frame Meds.row :=
  {| columns := columns meds;
     rows := filter (fun r => isin (Meds.DESCRIPTION r) top_meds)
                    (rows meds) |}.

Definition trend : element :=
  if has_column "Year" meds_top then
    plotly_chart
      (px_bar (fun r => of_num (Meds.Year r))
              (fun r => of_num (Meds.DISPENSES r))
              (Some (fun r => of_str (Meds.DESCRIPTION r)))
              (rows meds_top))
  else info "Year column not available for trend chart.".

Definition page : list element :=
  [ title "Forecasting Medicine Requirements for a Hospital";
    subheader "Overview of Medicine Usage and Key Metrics" ]
  ++ metrics
  ++ [ markdown "### Top Medicines Dispensed – 5-Year Trend"; trend ].

(** The page as the script runs it: [page] is what it shows when it reaches
    its end; lines 59 and 60 read [DISPENSES] and [DESCRIPTION] whether the
    table has them or not. *)
Definition render : script unit :=
  steps
    [ show (title "Forecasting Medicine Requirements for a Hospital");
      show (subheader "Overview of Medicine Usage and Key Metrics");
      column "DISPENSES" meds;
      column "DESCRIPTION" meds;
      show_all metrics;
      show (markdown "### Top Medicines Dispensed – 5-Year Trend");
      show trend ].
End Page.
End DashboardOverview.

(* ================================================================= *)
(** ** Page 2: Forecasting by Year (lines 99-141) *)

Module ForecastingByYear.
Section Page.
Context `{Pandas}.
Variable afc : frame Afc.row.
(** The option the session holds for the widget
    ["forecast_select_medicine"]. *)
Variable forecast_select_medicine : nat.

(** Medicines with the number of their distinct types. *)
Definition type_counts : list (string * Z) :=
  groupby_nunique String.eqb str_leb Afc.Medicine Afc.Type_ (rows afc).

(** Only medicines with at least 2 types (Actual + Forecast). *)
Definition valid_meds : list (option string) :=
  map (fun p => Some (fst p)) (filter (fun p => 2 <=? snd p) type_counts).

Definition med_list : list string :=
  sorted (unique String.eqb (dropna valid_meds)).

Definition selected_medicine : option string :=
  selectbox med_list forecast_select_medicine.

(** [afc[afc["Medicine"] == selected_medicine].sort_values("Year")] *)
Definition df_med : result (frame Afc.row) :=
  let picked :=
    {| columns := columns afc;
       rows := filter (fun r => eq_cell (Afc.Medicine r) selected_medicine)
                      (rows afc) |} in
  if has_column "Year" picked then
    Ok {| columns := columns picked;
          rows := nargsort Afc.Year true (rows picked) |}
  else KeyError "Year".

(** [f"### Actual vs Forecast for: **{selected_medicine}**"] *)
Definition heading : string :=
  "### Actual vs Forecast for: **"
  ++ match selected_medicine with
     | Some s => s
     | None => "None"
     end
  ++ "**".

(** The chart of the rows of a comparison. *)
Definition chart (df : frame Afc.row) : element :=
  plotly_chart
    (px_bar (fun r => of_num (Afc.Year r))
            (fun r => of_num (Afc.Value r))
            (Some (fun r => of_str (Afc.Type_ r)))
            (rows df)).

(** The page as the script runs it: the group-by of line 104 reads
    [Medicine] and [Type], the sort of line 122 reads [Year], the chart of
    line 127 reads [Value], whether the table has them or not. *)
Definition render : script unit :=
  steps
    [ show (title "Medicine Forecasting by Year");
      column "Medicine" afc;
      column "Type" afc;
      show (selectbox_widget "Select Medicine" med_list);
      and_then (lift df_med)
               (fun df =>
                  steps [ show (markdown heading);
                          px_column "Value" df;
                          show (chart df) ]) ].
End Page.
End ForecastingByYear.

(* ================================================================= *)
(** ** Page 3: Department Usage (lines 147-173) *)

(** The two group keys of a row, when it has both. *)
Definition class_and_description (r : Meds.row) : option (string * string) :=
  match Meds.ENCOUNTERCLASS r, Meds.DESCRIPTION r with
  | Some e, Some d => Some (e, d)
  | _, _ => None
  end.

Module DepartmentUsage.
Section Page.
Context `{Pandas}.
Variable meds : frame Meds.row.

Definition has_encounterclass : bool := has_column "ENCOUNTERCLASS" meds.

Definition dept_summary : list (string * Z) :=
  nargsort (fun p => Some (snd p)) false
    (groupby_sum String.eqb str_leb Meds.ENCOUNTERCLASS Meds.DISPENSES
                 (rows meds)).

Definition top_by_dept : list (string * string * Z) :=
  stable_sort dept_leb
    (groupby_sum pair_eqb pair_leb class_and_description Meds.DISPENSES
                 (rows meds)).

Definition page : list element :=
  title "Medicine Usage by Department" ::
  if has_encounterclass then
    [ plotly_chart
        (px_bar (fun p => Str (fst p)) (fun p => Int (snd p)) None
                dept_summary);
      markdown "#### Top Medicines within Each Department (first 50 rows)";
      dataframe ["ENCOUNTERCLASS"; "DESCRIPTION"; "DISPENSES"]
                (map (fun p => [Str (fst (fst p)); Str (snd (fst p));
                                Int (snd p)])
                     (head 50 top_by_dept)) ]
  else
    [ info "ENCOUNTERCLASS column not found in medication_summary.csv" ].

(** The page as the script runs it: [page] is what it shows when it reaches
    its end; behind the guard the group-by of line 152 reads [DISPENSES] and
    that of line 167 reads [DESCRIPTION], whether the table has them or
    not. *)
Definition render : script unit :=
  steps
    [ show (title "Medicine Usage by Department");
      if has_encounterclass then
        steps
          [ column "DISPENSES" meds;
            show (plotly_chart
                    (px_bar (fun p => Str (fst p)) (fun p => Int (snd p)) None
                            dept_summary));
            show (markdown
                    "#### Top Medicines within Each Department (first 50 rows)");
            column "DESCRIPTION" meds;
            show (dataframe ["ENCOUNTERCLASS"; "DESCRIPTION"; "DISPENSES"]
                            (map (fun p => [Str (fst (fst p));
                                            Str (snd (fst p)); Int (snd p)])
                                 (head 50 top_by_dept))) ]
      else
        show (info
                "ENCOUNTERCLASS column not found in medication_summary.csv") ].
End Page.
End DepartmentUsage.

(* ================================================================= *)
(** ** Page 4: Executive Summary (lines 178-236) *)

Module ExecutiveSummary.
Section Page.
Context `{Pandas}.
Variable meds : frame Meds.row.

Definition has_total_cost : bool := has_column "TOTALCOST" meds.
Definition has_encounterclass : bool := has_column "ENCOUNTERCLASS" meds.

Definition total_dispenses : Z := sum (map Meds.DISPENSES (rows meds)).
Definition unique_meds : Z := nunique (map Meds.DESCRIPTION (rows meds)).
Definition total_cost : option Z :=
  if has_total_cost then Some (sum (map Meds.TOTALCOST (rows meds)))
  else None.

Definition metrics : list element :=
  [ metric "Total Medicines Dispensed" (format_comma (int total_dispenses));
    metric "Unique Medicines" (format_comma unique_meds);
    match total_cost with
    | Some c => metric "Total Cost of Medicines" ("$" ++ format_comma (int c))
    | None => metric "Total Cost of Medicines" "N/A"
    end ].

Definition cost_group : list (string * Z) :=
  head 10
    (nargsort (fun p => Some (snd p)) false
       (groupby_sum String.eqb str_leb Meds.DESCRIPTION Meds.TOTALCOST
                    (rows meds))).

Definition dept_summary : list (string * Z) :=
  nargsort (fun p => Some (snd p)) false
    (groupby_sum String.eqb str_leb Meds.ENCOUNTERCLASS Meds.DISPENSES
                 (rows meds)).

Definition narrative : string :=
  "
- **" ++ format_comma (int total_dispenses)
  ++ "** medicine units dispensed across **" ++ format_int unique_meds
  ++ "** unique medicines.
- Ambulatory / wellness and other high-use departments can be identified from the department usage view.
- Forecasting page compares **Actual vs Forecast** values for each medicine across years.
- High-cost medicines can be targeted for tighter inventory and budget control.
".

Definition page : list element :=
  [ title "Executive Summary Dashboard";
    subheader "Key Insights from Medicine Inventory and Usage Analysis" ]
  ++ metrics
  ++ (if has_total_cost then
        [ markdown "#### Top Costliest Medicines";
          plotly_chart
            (px_bar (fun p => Int (snd p)) (fun p => Str (fst p)) None
                    cost_group) ]
      else [])
  ++ (if has_encounterclass then
        [ markdown "#### Medicine Usage by Department";
          plotly_chart
            (px_bar (fun p => Str (fst p)) (fun p => Int (snd p)) None
                    dept_summary) ]
      else [])
  ++ [ markdown "### Narrative Insights"; write narrative ].

(** The page as the script runs it: [page] is what it shows when it reaches
    its end; lines 182 and 183 read [DISPENSES] and [DESCRIPTION] whether
    the table has them or not. *)
Definition render : script unit :=
  steps
    [ show (title "Executive Summary Dashboard");
      show (subheader
              "Key Insights from Medicine Inventory and Usage Analysis");
      column "DISPENSES" meds;
      column "DESCRIPTION" meds;
      show_all metrics;
      if has_total_cost then
        steps
          [ show (markdown "#### Top Costliest Medicines");
            show (plotly_chart
                    (px_bar (fun p => Int (snd p)) (fun p => Str (fst p)) None
                            cost_group)) ]
      else finish tt;
      if has_encounterclass then
        steps
          [ show (markdown "#### Medicine Usage by Department");
            show (plotly_chart
                    (px_bar (fun p => Str (fst p)) (fun p => Int (snd p)) None
                            dept_summary)) ]
      else finish tt;
      show (markdown "### Narrative Insights");
      show (write narrative) ].
End Page.
End ExecutiveSummary.

(* ================================================================= *)
(** ** The script: load, then render the page the sidebar selects *)

Inductive page_name : Type :=
| Dashboard_Overview
| Forecasting_by_Year
| Department_Usage
| Executive_Summary.

Section App.
Context `{Pandas}.

(** One run of the script: what is on the screen at its end, and whether
    it ended on an exception. *)
Definition app (page : page_name) (forecast_select_medicine : nat)
  : io (list element * result unit) :=
  loaded <- load_data ;;
  let meds := fst loaded in
  let afc := snd loaded in
  ret (run match page with
           | Dashboard_Overview => DashboardOverview.render meds
           | Forecasting_by_Year =>
               ForecastingByYear.render afc forecast_select_medicine
           | Department_Usage => DepartmentUsage.render meds
           | Executive_Summary => ExecutiveSummary.render meds
           end).
End App.

(* ================================================================= *)
(** ** Reference routines and sample tables, to run the model *)

Module Reference.
Definition number (s : string) : option Z :=
  option_map Z.of_int (DecimalString.NilZero.int_of_string s).

Definition field (s : string) : option Z :=
  option_map Z.of_uint (DecimalString.NilEmpty.uint_of_string s).

(** Dates written [YYYY-MM-DD]. *)
Definition iso_date (s : string) : option Timestamp :=
  if (String.length s =? 10)%nat
     && String.eqb (substring 4 1 s) "-"
     && String.eqb (substring 7 1 s) "-"
  then
    match field (substring 0 4 s), field (substring 5 2 s),
          field (substring 8 2 s) with
    | Some y, Some m, Some d =>
        Some {| ts_year := y; ts_month := m; ts_day := d |}
    | _, _, _ => None
    end
  else None.

Definition datetimes (col : list cell) : list (option Timestamp) :=
  map (fun c => match c with Str s => iso_date s | _ => None end) col.

Definition by_key (A : Type) (key : A -> Z) (a b : A) : bool :=
  key a <=? key b.
End Reference.

Module Sample.
Definition med (d : string) (m : string) (n : Z) (e : string) : MedsCsv.row :=
  {| MedsCsv.DESCRIPTION := Some d; MedsCsv.Month := Str m;
     MedsCsv.Year := None; MedsCsv.DISPENSES := Some n;
     MedsCsv.TOTALCOST := None; MedsCsv.ENCOUNTERCLASS := Some e |}.

(** A summary with months, departments and no cost column. *)
Definition medication_summary : frame MedsCsv.row :=
  {| columns := ["DESCRIPTION"; "Month"; "DISPENSES"; "ENCOUNTERCLASS"];
     rows := [ med "Aspirin" "2021-03-01" 10 "ambulatory";
               med "Aspirin" "2019-07-01" 999 "ambulatory";
               med "Insulin" "2022-01-01" 7 "inpatient";
               med "Insulin" "not a date" 5 "inpatient";
               med "Aspirin" "2023-05-01" 4 "inpatient";
               med "Heparin" "2026-01-01" 3 "inpatient" ] |}.

(** The same summary without its department column. *)
Definition without_departments : frame MedsCsv.row :=
  {| columns := ["DESCRIPTION"; "Month"; "DISPENSES"];
     rows := rows medication_summary |}.


Definition obs (m : option string) (y : cell) (t : string) (v : Z)
  : AfcCsv.row :=
  {| AfcCsv.Medicine := m; AfcCsv.Year := y; AfcCsv.Type_ := Some t;
     AfcCsv.Value := Some v |}.

Definition actual_forecast_combined : frame AfcCsv.row :=
  {| columns := ["Medicine"; "Year"; "Type"; "Value"];
     rows := [ obs (Some "X") (Int 2021) "Actual" 5;
               obs (Some "Insulin") (Str "2024") "Forecast" 9;
               obs (Some "Insulin") (Int 2022) "Actual" 7;
               obs (Some "Insulin") (Str "n/a") "Actual" 1;
               obs (Some "Aspirin") (Int 2030) "Forecast" 2;
               obs (Some "Aspirin") (Int 2021) "Actual" 10;
               obs None (Int 2021) "Actual" 3;
               obs None (Int 2022) "Forecast" 4 ] |}.


Definition dispensed_in (e d : string) (n : Z) : Meds.row :=
  {| Meds.DESCRIPTION := Some d; Meds.Month := None; Meds.Year := Some 2021;
     Meds.DISPENSES := Some n; Meds.TOTALCOST := None;
     Meds.ENCOUNTERCLASS := Some e |}.

(** A loaded table with one medicine in department "wellness" and 51 in
    department "ambulatory". *)
Definition crowded : frame Meds.row :=
  {| columns := ["DESCRIPTION"; "DISPENSES"; "ENCOUNTERCLASS"; "Year"];
     rows := dispensed_in "wellness" "Zinc" 1000
             :: map (fun n => dispensed_in "ambulatory"
                                ("M" ++ format_int (Z.of_nat n))
                                (Z.of_nat n))
                    (seq 100 51) |}.

(** A loaded table of seven medicines. *)
Definition seven : frame Meds.row :=
  {| columns := ["DESCRIPTION"; "DISPENSES"; "ENCOUNTERCLASS"; "Year"];
     rows := [ dispensed_in "ward" "A" 1; dispensed_in "ward" "B" 2;
               dispensed_in "ward" "C" 3; dispensed_in "ward" "D" 4;
               dispensed_in "ward" "E" 5; dispensed_in "ward" "F" 6;
               dispensed_in "ward" "G" 7; dispensed_in "clinic" "C" 10 ] |}.

(** A loaded table of six medicines; the dispenses of the first add up to
    2^63, one more than the largest 64-bit integer. *)
Definition overflowing : frame Meds.row :=
  {| columns := ["DESCRIPTION"; "DISPENSES"; "ENCOUNTERCLASS"; "Year"];
     rows := [ dispensed_in "ward" "A" 9223372036854775807;
               dispensed_in "ward" "A" 1;
               dispensed_in "ward" "B" 1; dispensed_in "ward" "C" 1;
               dispensed_in "ward" "D" 1; dispensed_in "ward" "E" 1;
               dispensed_in "ward" "F" 1 ] |}.

(** A loaded table whose file had neither [DISPENSES] nor [TOTALCOST]. *)
Definition no_dispenses : frame Meds.row :=
  {| columns := ["DESCRIPTION"; "ENCOUNTERCLASS"; "Year"];
     rows := [ {| Meds.DESCRIPTION := Some "Aspirin"; Meds.Month := None;
                  Meds.Year := Some 2021; Meds.DISPENSES := None;
                  Meds.TOTALCOST := None;
                  Meds.ENCOUNTERCLASS := Some "ward" |} ] |}.

(** A summary all of whose months lie before 2020 or do not parse. *)
Definition outdated : frame MedsCsv.row :=
  {| columns := ["DESCRIPTION"; "Month"; "DISPENSES"; "TOTALCOST";
                 "ENCOUNTERCLASS"];
     rows := [ med "Aspirin" "2019-06-01" 999 "ambulatory";
               med "Insulin" "last spring" 5 "inpatient" ] |}.

(** A summary with a year column and no month. *)
Definition yearly : frame MedsCsv.row :=
  {| columns := ["DESCRIPTION"; "Year"; "DISPENSES"];
     rows := [ {| MedsCsv.DESCRIPTION := Some "Aspirin"; MedsCsv.Month := NaN;
                  MedsCsv.Year := Some 1999; MedsCsv.DISPENSES := Some 999;
                  MedsCsv.TOTALCOST := None;
                  MedsCsv.ENCOUNTERCLASS := None |};
               {| MedsCsv.DESCRIPTION := Some "Aspirin"; MedsCsv.Month := NaN;
                  MedsCsv.Year := Some 2021; MedsCsv.DISPENSES := Some 10;
                  MedsCsv.TOTALCOST := None;
                  MedsCsv.ENCOUNTERCLASS := None |} ] |}.

(** A forecast series without its year column. *)
Definition undated_forecast : frame AfcCsv.row :=
  {| columns := ["Medicine"; "Type"; "Value"];
     rows := [ obs (Some "Insulin") NaN "Actual" 7;
               obs (Some "Insulin") NaN "Forecast" 9 ] |}.

Definition costing (d : string) (c : Z) (e : option string) : Meds.row :=
  {| Meds.DESCRIPTION := Some d; Meds.Month := None; Meds.Year := Some 2022;
     Meds.DISPENSES := Some 1; Meds.TOTALCOST := Some c;
     Meds.ENCOUNTERCLASS := e |}.

(** A loaded table with costs; one row has no department. *)
Definition priced : frame Meds.row :=
  {| columns := ["DESCRIPTION"; "DISPENSES"; "TOTALCOST"; "ENCOUNTERCLASS";
                 "Year"];
     rows := [ costing "Aspirin" 20 (Some "ambulatory");
               costing "Insulin" 300 (Some "inpatient");
               costing "Aspirin" 15 None;
               costing "Heparin" 35 (Some "inpatient") ] |}.

Definition seen (m t : string) (y : Z) : Afc.row :=
  {| Afc.Medicine := Some m; Afc.Year := Some y; Afc.Type_ := Some t;
     Afc.Value := Some 1 |}.

(** A loaded series in which no medicine has a forecast. *)
Definition actuals_only : frame Afc.row :=
  {| columns := ["Medicine"; "Year"; "Type"; "Value"];
     rows := [ seen "Aspirin" "Actual" 2021; seen "Aspirin" "Actual" 2022;
               seen "Insulin" "Actual" 2021 ] |}.

(** A loaded series with one medicine that has both types. *)
Definition both_types : frame Afc.row :=
  {| columns := ["Medicine"; "Year"; "Type"; "Value"];
     rows := [ seen "Insulin" "Forecast" 2024; seen "Aspirin" "Actual" 2021;
               seen "Insulin" "Actual" 2022 ] |}.
End Sample.

(* ================================================================= *)
(** ** The vocabulary of the properties *)

(** A year cell that holds a year from 2020 to 2025. *)
Definition year_in_range (y : option Z) : Prop :=
  exists z, y = Some z /\ 2020 <= z <= 2025.

(** Some row of the table records medicine [m] with type [t]. *)
Definition has_type (afc : list Afc.row) (m t : string) : Prop :=
  exists r, In r afc /\ Afc.Medicine r = Some m /\ Afc.Type_ r = Some t.

(** Department ascending, then dispenses descending. *)
Definition dept_order (a b : string * string * Z) : Prop :=
  str_ltb (fst (fst a)) (fst (fst b)) = true
  \/ (fst (fst a) = fst (fst b) /\ snd b <= snd a).


(** Department ascending, then medicine ascending, both strictly: the order
    of the groups of a group-by on the two columns. *)
Definition key_before (a b : string * string) : Prop :=
  str_ltb (fst a) (fst b) = true
  \/ (fst a = fst b /\ str_ltb (snd a) (snd b) = true).

(** The summed cost of one medicine. *)
Definition spent (meds : list Meds.row) (d : string) : Z :=
  sum (map Meds.TOTALCOST
           (filter (fun r => eq_cell (Meds.DESCRIPTION r) (Some d)) meds)).

(** The sum of a column of numbers. *)
Definition total (l : list Z) : Z := fold_right Z.add 0 l.

(** Department ascending, then dispenses descending, then medicine
    ascending: the order that leaves no two rows of the department table
    tied. *)
Definition dept_tie_order (a b : string * string * Z) : Prop :=
  str_ltb (fst (fst a)) (fst (fst b)) = true
  \/ (fst (fst a) = fst (fst b)
      /\ (snd b < snd a
          \/ (snd b = snd a
              /\ str_ltb (snd (fst a)) (snd (fst b)) = true))).

(** Whether an integer is a 64-bit signed integer. *)
Definition is_int64 (z : Z) : bool := (- 2 ^ 63 <=? z) && (z <? 2 ^ 63).

(** A column pandas holds as [int64]: no cell is missing and every cell is
    a 64-bit signed integer. *)
Definition int64_column (col : list (option Z)) : bool :=
  forallb (fun c => match c with Some z => is_int64 z | None => false end)
          col.

(** The dispenses of all rows, added up as integers are. *)
Fixpoint all_dispensed (meds : list Meds.row) : Z :=
  match meds with
  | [] => 0
  | r :: rest =>
      match Meds.DISPENSES r with Some z => z | None => 0 end
      + all_dispensed rest
  end.

(** The dispenses of the rows of one medicine, added up as integers are. *)
Fixpoint dispensed_exactly (meds : list Meds.row) (d : string) : Z :=
  match meds with
  | [] => 0
  | r :: rest =>
      match Meds.DESCRIPTION r, Meds.DISPENSES r with
      | Some d', Some z => if String.eqb d' d then z else 0
      | _, _ => 0
      end
      + dispensed_exactly rest d
  end.

(** The summed dispenses of one medicine, as a 64-bit integer. *)
Definition dispensed (meds : list Meds.row) (d : string) : Z :=
  wrap64 (dispensed_exactly meds d).

(** The dispenses of the rows of one medicine in one department, added up
    as integers are. *)
Fixpoint dispensed_in_exactly (meds : list Meds.row) (e d : string) : Z :=
  match meds with
  | [] => 0
  | r :: rest =>
      match Meds.ENCOUNTERCLASS r, Meds.DESCRIPTION r, Meds.DISPENSES r with
      | Some e', Some d', Some z =>
          if String.eqb e' e && String.eqb d' d then z else 0
      | _, _, _ => 0
      end
      + dispensed_in_exactly rest e d
  end.

(* ================================================================= *)
(** * Properties *)

(** ** The order on strings *)

Lemma str_ltb_lt a b : str_ltb a b = true <-> String_as_OT.lt a b.
Proof.
  unfold str_ltb, String_as_OT.lt.
  destruct (String_as_OT.compare a b); split; congruence.
Qed.

Lemma str_ltb_irrefl a : str_ltb a a = false.
Proof.
  destruct (str_ltb a a) eqn:E; trivial.
  apply str_ltb_lt in E.
  exfalso. exact (StrictOrder_Irreflexive (R := String_as_OT.lt) a E).
Qed.

Lemma str_ltb_trans a b c :
  str_ltb a b = true -> str_ltb b c = true -> str_ltb a c = true.
Proof.
  rewrite !str_ltb_lt. apply (StrictOrder_Transitive (R := String_as_OT.lt)).
Qed.

Lemma str_trichotomy a b :
  str_ltb a b = true \/ a = b \/ str_ltb b a = true.
Proof.
  rewrite !str_ltb_lt.
  destruct (String_as_OT.compare_spec a b) as [E | L | L]; auto.
Qed.

Lemma str_ltb_asym a b : str_ltb a b = true -> str_ltb b a = false.
Proof.
  intros L. destruct (str_ltb b a) eqn:E; trivial.
  pose proof (str_ltb_trans _ _ _ L E) as C.
  rewrite str_ltb_irrefl in C. discriminate.
Qed.

Lemma str_leb_total a b : str_leb a b = false -> str_leb b a = true.
Proof.
  unfold str_leb. intros E. apply negb_false_iff in E.
  now rewrite (str_ltb_asym _ _ E).
Qed.

Lemma str_leb_spec a b : str_leb a b = true <-> str_ltb a b = true \/ a = b.
Proof.
  unfold str_leb. rewrite negb_true_iff. split.
  - intros E. destruct (str_trichotomy a b) as [L | [L | L]]; auto. congruence.
  - intros [L | ->]; [now apply str_ltb_asym | apply str_ltb_irrefl].
Qed.

Lemma str_leb_trans a b c :
  str_leb a b = true -> str_leb b c = true -> str_leb a c = true.
Proof.
  rewrite !str_leb_spec. intros [L1 | ->] [L2 | ->]; auto.
  left. eapply str_ltb_trans; eauto.
Qed.


(** ** The stable sort *)

Section StableSortFacts.
Variable A : Type.
Variable leb : A -> A -> bool.

Lemma insert_Permutation x l : Permutation (x :: l) (insert leb x l).
Proof.
  induction l as [| y l IH]; simpl; [reflexivity |].
  destruct (leb x y); [reflexivity |].
  rewrite perm_swap. now constructor.
Qed.

Lemma stable_sort_Permutation l : Permutation l (stable_sort leb l).
Proof.
  induction l as [| x l IH]; simpl; [constructor |].
  rewrite <- insert_Permutation. now constructor.
Qed.

Lemma stable_sort_In x l : In x (stable_sort leb l) <-> In x l.
Proof.
  split; apply Permutation_in;
    [symmetry |]; apply stable_sort_Permutation.
Qed.

Hypothesis leb_total : forall a b, leb a b = false -> leb b a = true.

Lemma insert_Sorted x l :
  Sorted (fun a b => leb a b = true) l ->
  Sorted (fun a b => leb a b = true) (insert leb x l).
Proof.
  induction 1 as [| y l S IH Hd]; simpl.
  - repeat constructor.
  - destruct (leb x y) eqn:E.
    + constructor; [now constructor | now constructor].
    + constructor; [exact IH |].
      destruct Hd as [| z l Lz]; simpl.
      * constructor. now apply leb_total.
      * destruct (leb x z); constructor; auto.
Qed.

Lemma stable_sort_Sorted l :
  Sorted (fun a b => leb a b = true) (stable_sort leb l).
Proof.
  induction l as [| x l IH]; simpl; [constructor |].
  now apply insert_Sorted.
Qed.

Hypothesis leb_trans :
  forall a b c, leb a b = true -> leb b c = true -> leb a c = true.

Lemma stable_sort_StronglySorted l :
  StronglySorted (fun a b => leb a b = true) (stable_sort leb l).
Proof.
  apply Sorted_StronglySorted; [| apply stable_sort_Sorted].
  intros a b c. apply leb_trans.
Qed.
End StableSortFacts.

(** ** Lists: prefixes, reversal, sortedness *)

Section ListFacts.
Variable A : Type.
Variable R : A -> A -> Prop.

Lemma StronglySorted_app_inv (l1 l2 : list A) :
  StronglySorted R (l1 ++ l2) ->
  StronglySorted R l1 /\ StronglySorted R l2
  /\ (forall a b, In a l1 -> In b l2 -> R a b).
Proof.
  induction l1 as [| x l1 IH]; simpl; intros S.
  - repeat split; [constructor | exact S | contradiction].
  - apply StronglySorted_inv in S. destruct S as [S F].
    destruct (IH S) as (S1 & S2 & C).
    rewrite Forall_app in F. destruct F as [F1 F2].
    repeat split; trivial.
    + now constructor.
    + intros a b [<- | Ia] Ib; [| now apply C].
      rewrite Forall_forall in F2. now apply F2.
Qed.

Lemma StronglySorted_app (l1 l2 : list A) :
  StronglySorted R l1 -> StronglySorted R l2 ->
  (forall a b, In a l1 -> In b l2 -> R a b) ->
  StronglySorted R (l1 ++ l2).
Proof.
  induction 1 as [| x l1 S IH F]; simpl; intros S2 C; [exact S2 |].
  constructor.
  - apply IH; [exact S2 | intros; apply C; simpl; auto].
  - rewrite Forall_app. split; [exact F |].
    rewrite Forall_forall. intros b Ib. apply C; simpl; auto.
Qed.

Lemma StronglySorted_firstn n (l : list A) :
  StronglySorted R l -> StronglySorted R (firstn n l).
Proof.
  intros S. rewrite <- (firstn_skipn n l) in S.
  now apply StronglySorted_app_inv in S.
Qed.

(** In a sorted list whatever stands before comes first in the order. *)
Lemma StronglySorted_split (l1 l2 l3 : list A) a b :
  StronglySorted R (l1 ++ a :: l2 ++ b :: l3) -> R a b.
Proof.
  intros S. apply StronglySorted_app_inv in S. destruct S as (_ & S & _).
  apply StronglySorted_inv in S. destruct S as [_ F].
  rewrite Forall_forall in F. apply F. apply in_or_app. simpl. auto.
Qed.
End ListFacts.

Lemma StronglySorted_rev (A : Type) (R : A -> A -> Prop) (l : list A) :
  StronglySorted R l -> StronglySorted (fun a b => R b a) (List.rev l).
Proof.
  induction 1 as [| x l S IH F]; simpl; [constructor |].
  apply StronglySorted_app; [exact IH | repeat constructor |].
  intros a b Ia [<- | []]. apply in_rev in Ia.
  rewrite Forall_forall in F. now apply F.
Qed.

Lemma firstn_In (A : Type) n (l : list A) x : In x (firstn n l) -> In x l.
Proof.
  intros I. rewrite <- (firstn_skipn n l). apply in_or_app. now left.
Qed.

(** ** Missing cells, distinct values *)

Lemma dropna_In (A : Type) (l : list (option A)) x :
  In x (dropna l) <-> In (Some x) l.
Proof.
  induction l as [| [y |] l IH]; simpl.
  - tauto.
  - rewrite IH. split; intros [E | I]; auto; left; congruence.
  - rewrite IH. split; [auto | intros [E | I]; [discriminate | exact I]].
Qed.

Lemma dropna_map_Some (A B : Type) (f : A -> B) l :
  dropna (map (fun a => Some (f a)) l) = map f l.
Proof.
  induction l as [| a l IH]; simpl; [reflexivity | now rewrite IH].
Qed.

Section UniqueFacts.
Variable A : Type.
Variable eqb : A -> A -> bool.
Hypothesis eqb_eq : forall a b, eqb a b = true <-> a = b.

Lemma unique_In x l : In x (unique eqb l) <-> In x l.
Proof.
  induction l as [| y l IH]; simpl; [tauto |].
  rewrite filter_In, IH, negb_true_iff.
  split.
  - intros [E | [I _]]; auto.
  - intros [E | I]; auto.
    destruct (eqb y x) eqn:E; [left; now apply eqb_eq | right; auto].
Qed.

Lemma unique_NoDup l : NoDup (unique eqb l).
Proof.
  induction l as [| y l IH]; simpl; constructor.
  - rewrite filter_In, negb_true_iff. intros [_ E].
    assert (eqb y y = true) by now apply eqb_eq. congruence.
  - now apply NoDup_filter.
Qed.

(** Two distinct values occur exactly when [unique] keeps two or more. *)
Lemma unique_two l :
  (2 <= List.length (unique eqb l))%nat <->
  exists a b, a <> b /\ In a l /\ In b l.
Proof.
  split.
  - intros L. destruct (unique eqb l) as [| a [| b u]] eqn:E;
      simpl in L; try lia.
    pose proof (unique_NoDup l) as N. rewrite E in N.
    exists a, b. repeat split.
    + inversion N as [| ? ? Na _]. intros ->. apply Na. now left.
    + apply unique_In. rewrite E. now left.
    + apply unique_In. rewrite E. right. now left.
  - intros (a & b & D & Ia & Ib).
    apply unique_In in Ia, Ib. pose proof (unique_NoDup l) as N.
    destruct (unique eqb l) as [| x [| y u]]; simpl in *;
      try lia; try contradiction.
    destruct Ia as [<- | []], Ib as [<- | []]. now elim D.
Qed.
End UniqueFacts.

Lemma filter_all (A : Type) (f : A -> bool) l :
  (forall a, In a l -> f a = true) -> filter f l = l.
Proof.
  induction l as [| x l IH]; simpl; intros F; [reflexivity |].
  rewrite (F x) by auto. f_equal. apply IH. auto.
Qed.

Lemma filter_none (A : Type) (f : A -> bool) l :
  (forall a, In a l -> f a = false) -> filter f l = [].
Proof.
  induction l as [| x l IH]; simpl; intros F; [reflexivity |].
  rewrite (F x) by auto. apply IH. auto.
Qed.

Lemma filter_split_Permutation (A : Type) (f : A -> bool) l :
  Permutation l (filter f l ++ filter (fun a => negb (f a)) l).
Proof.
  induction l as [| x l IH]; simpl; [constructor |].
  destruct (f x); simpl.
  - now constructor.
  - rewrite <- Permutation_middle. now constructor.
Qed.

Lemma Sorted_weaken (A : Type) (R R' : A -> A -> Prop) l :
  (forall a b, R a b -> R' a b) -> Sorted R l -> Sorted R' l.
Proof.
  intros W. induction 1 as [| x l S IH Hd]; constructor; trivial.
  destruct Hd; constructor; auto.
Qed.

(** ** Group-by *)

Section GroupByFacts.
Variables R K : Type.
Variables eqb leb : K -> K -> bool.
Variable key : R -> option K.
Hypothesis eqb_eq : forall a b, eqb a b = true <-> a = b.

Lemma group_In k df r :
  In r (group eqb key k df) <-> In r df /\ key r = Some k.
Proof using eqb_eq.
  unfold group. rewrite filter_In.
  destruct (key r) as [k' |].
  - rewrite eqb_eq. split; intros [I E]; split; congruence.
  - split; intros [I E]; discriminate.
Qed.

Lemma groupby_keys_In k df :
  In k (groupby_keys eqb leb key df) <-> exists r, In r df /\ key r = Some k.
Proof.
  unfold groupby_keys.
  rewrite stable_sort_In, (unique_In _ eqb_eq), dropna_In, in_map_iff.
  split; intros (r & E); exists r; tauto.
Qed.

Lemma groupby_keys_NoDup df : NoDup (groupby_keys eqb leb key df).
Proof.
  unfold groupby_keys.
  eapply Permutation_NoDup; [apply stable_sort_Permutation |].
  now apply unique_NoDup.
Qed.

Lemma groupby_sum_keys val df :
  map fst (groupby_sum eqb leb key val df) = groupby_keys eqb leb key df.
Proof.
  unfold groupby_sum. rewrite map_map. simpl. apply map_id.
Qed.

Lemma groupby_sum_In val df k s :
  In (k, s) (groupby_sum eqb leb key val df) <->
  In k (groupby_keys eqb leb key df)
  /\ s = sum (map val (group eqb key k df)).
Proof.
  unfold groupby_sum. rewrite in_map_iff. split.
  - intros (k' & E & I). inversion E; subst. auto.
  - intros [I ->]. exists k. auto.
Qed.

Lemma groupby_nunique_In val df k n :
  In (k, n) (groupby_nunique eqb leb key val df) <->
  In k (groupby_keys eqb leb key df)
  /\ n = nunique (map val (group eqb key k df)).
Proof.
  unfold groupby_nunique. rewrite in_map_iff. split.
  - intros (k' & E & I). inversion E; subst. auto.
  - intros [I ->]. exists k. auto.
Qed.
End GroupByFacts.

(** ** The single-key sort *)

Section SortingFacts.
Context `{Pandas}.
Variable A : Type.

Lemma nargsort_Permutation (key : A -> option Z) asc l :
  Permutation l (nargsort key asc l).
Proof.
  unfold nargsort.
  rewrite (filter_split_Permutation (fun a => is_some (key a)) l) at 1.
  apply Permutation_app_tail.
  destruct asc.
  - apply quicksort_Permutation.
  - rewrite <- Permutation_rev, <- quicksort_Permutation.
    apply Permutation_rev.
Qed.

Lemma nargsort_In (key : A -> option Z) asc l x :
  In x (nargsort key asc l) <-> In x l.
Proof.
  split; apply Permutation_in;
    [symmetry |]; apply nargsort_Permutation.
Qed.

Lemma quicksort_StronglySorted (k : A -> Z) l :
  StronglySorted (fun a b => k a <= k b) (quicksort k l).
Proof.
  apply Sorted_StronglySorted; [| apply quicksort_Sorted].
  intros a b c. lia.
Qed.

(** A descending sort on a key no row lacks. *)
Lemma nargsort_descending (k : A -> Z) l :
  nargsort (fun a => Some (k a)) false l
  = List.rev (quicksort k (List.rev l)).
Proof.
  unfold nargsort. simpl.
  rewrite filter_all, filter_none by reflexivity.
  now rewrite app_nil_r.
Qed.

Lemma nargsort_descending_StronglySorted (k : A -> Z) l :
  StronglySorted (fun a b => k b <= k a)
                 (nargsort (fun a => Some (k a)) false l).
Proof.
  rewrite nargsort_descending.
  apply StronglySorted_rev, quicksort_StronglySorted.
Qed.
End SortingFacts.

(** ** The reference routines are pandas routines *)

Lemma reference_datetimes_length col :
  List.length (Reference.datetimes col) = List.length col.
Proof. apply length_map. Qed.

Lemma reference_sort_Sorted (A : Type) (key : A -> Z) l :
  Sorted (fun a b => key a <= key b) (stable_sort (Reference.by_key key) l).
Proof.
  apply Sorted_weaken with (R := fun a b => Reference.by_key key a b = true).
  - unfold Reference.by_key. intros a b. apply Z.leb_le.
  - apply stable_sort_Sorted. unfold Reference.by_key. intros a b.
    rewrite Z.leb_gt, Z.leb_le. lia.
Qed.

#[global] Instance reference_pandas : Pandas :=
  {| to_datetime := Reference.datetimes;
     to_datetime_length := reference_datetimes_length;
     parse_number := Reference.number;
     quicksort := fun A key => stable_sort (Reference.by_key key);
     quicksort_Permutation :=
       fun A key l => stable_sort_Permutation (Reference.by_key key) l;
     quicksort_Sorted := reference_sort_Sorted |}.

(** ** The loader *)

Lemma in_range_spec y : in_range y = true <-> year_in_range y.
Proof.
  unfold in_range, year_in_range. destruct y as [z |].
  - rewrite andb_true_iff, !Z.leb_le. split.
    + intros L. exists z. auto.
    + intros (z' & E & L). inversion E. subst. exact L.
  - split; [discriminate | intros (z & E & _); discriminate].
Qed.

Section LoaderFacts.
Context `{Pandas}.

Lemma parsed_rows_length rs :
  List.length (parsed_rows rs) = List.length rs.
Proof.
  unfold parsed_rows.
  rewrite length_map, length_combine, to_datetime_length, length_map.
  apply Nat.min_id.
Qed.


Lemma load_meds_rows csv :
  has_column "Month" csv = true ->
  rows (load_meds csv)
  = filter (fun r => in_range (Meds.Year r)) (parsed_rows (rows csv)).
Proof. unfold load_meds. now intros ->. Qed.

Lemma load_afc_rows csv :
  has_column "Year" csv = true ->
  rows (load_afc csv)
  = filter (fun r => in_range (Afc.Year r)) (map coerce_year (rows csv)).
Proof. unfold load_afc. now intros ->. Qed.

Lemma load_afc_columns csv : columns (load_afc csv) = columns csv.
Proof. unfold load_afc. now destruct (has_column "Year" csv). Qed.
End LoaderFacts.

(** ** Prefixes of duplicate-free lists *)

Lemma NoDup_head (A : Type) n (l : list A) : NoDup l -> NoDup (head n l).
Proof.
  unfold head. intros N. rewrite <- (firstn_skipn n l) in N.
  now apply NoDup_app_remove_r in N.
Qed.

Lemma head_length (A : Type) n (l : list A) : (List.length (head n l) <= n)%nat.
Proof. unfold head. apply firstn_le_length. Qed.

Lemma head_In (A : Type) n (l : list A) x : In x (head n l) -> In x l.
Proof. apply firstn_In. Qed.

(** An element a prefix leaves out stands after the whole prefix. *)
Lemma head_cut (A : Type) (R : A -> A -> Prop) n (l : list A) a b :
  StronglySorted R l -> In a (head n l) -> In b l -> ~ In b (head n l) ->
  R a b.
Proof.
  unfold head. intros S Ia Ib Nb.
  rewrite <- (firstn_skipn n l) in S, Ib.
  apply StronglySorted_app_inv in S. destruct S as (_ & _ & C).
  apply in_app_or in Ib. destruct Ib as [Ib | Ib]; [contradiction |].
  now apply C.
Qed.

Lemma eq_cell_Some c d : eq_cell c (Some d) = true <-> c = Some d.
Proof.
  destruct c as [s |]; simpl; [| split; discriminate].
  rewrite String.eqb_eq. split; congruence.
Qed.

Lemma isin_spec c values :
  isin c values = true <-> exists d, c = Some d /\ In d values.
Proof.
  destruct c as [s |]; simpl.
  - rewrite existsb_exists. split.
    + intros (d & I & E). apply String.eqb_eq in E. subst. eauto.
    + intros (d & E & I). inversion E. subst. exists d.
      split; [exact I | apply String.eqb_refl].
  - split; [discriminate | intros (d & E & _); discriminate].
Qed.

(** ** Page 1: the sums per medicine and the five largest *)

Lemma group_description meds d :
  group String.eqb Meds.DESCRIPTION d meds
  = filter (fun r => eq_cell (Meds.DESCRIPTION r) (Some d)) meds.
Proof.
  unfold group. apply filter_ext. intros r.
  now destruct (Meds.DESCRIPTION r).
Qed.

Lemma wrap64_int64 z : is_int64 z = true -> wrap64 z = z.
Proof.
  unfold is_int64, wrap64. rewrite andb_true_iff, Z.leb_le, Z.ltb_lt.
  intros [L U]. rewrite Z.mod_small; lia.
Qed.

Lemma wrap64_is_int64 z : is_int64 (wrap64 z) = true.
Proof.
  unfold is_int64, wrap64. rewrite andb_true_iff, Z.leb_le, Z.ltb_lt.
  pose proof (Z.mod_pos_bound (z + 2 ^ 63) (2 ^ 64) ltac:(lia)). lia.
Qed.

(** The sum pandas gives for the rows of one medicine is the 64-bit value
    of their dispenses added up. *)
Lemma sum_of_description meds d :
  sum (map Meds.DISPENSES
           (filter (fun r => eq_cell (Meds.DESCRIPTION r) (Some d)) meds))
  = dispensed meds d.
Proof.
  unfold sum, dispensed. f_equal.
  induction meds as [| r meds IH]; simpl; [reflexivity |].
  destruct (Meds.DESCRIPTION r) as [d' |]; simpl; [| exact IH].
  destruct (String.eqb d' d); simpl.
  - destruct (Meds.DISPENSES r); simpl; lia.
  - destruct (Meds.DISPENSES r); simpl; lia.
Qed.

Section OverviewFacts.
Context `{Pandas}.
Variable meds : frame Meds.row.

Let sums : list (string * Z) :=
  groupby_sum String.eqb str_leb Meds.DESCRIPTION Meds.DISPENSES (rows meds).
Let ranked : list (string * Z) :=
  nargsort (fun p => Some (snd p)) false sums.

Lemma sums_In d s :
  In (d, s) sums <->
  (exists r, In r (rows meds) /\ Meds.DESCRIPTION r = Some d)
  /\ s = dispensed (rows meds) d.
Proof.
  unfold sums.
  rewrite groupby_sum_In, groupby_keys_In by apply String.eqb_eq.
  now rewrite group_description, sum_of_description.
Qed.

Lemma ranked_keys_NoDup : NoDup (map fst ranked).
Proof.
  eapply Permutation_NoDup.
  - apply Permutation_map. apply nargsort_Permutation.
  - unfold sums. rewrite groupby_sum_keys.
    apply groupby_keys_NoDup, String.eqb_eq.
Qed.

Lemma top_meds_ranked :
  DashboardOverview.top_meds meds = head 5 (map fst ranked).
Proof. unfold DashboardOverview.top_meds, head. symmetry. apply firstn_map. Qed.


Lemma top_meds_NoDup : NoDup (DashboardOverview.top_meds meds).
Proof. rewrite top_meds_ranked. apply NoDup_head, ranked_keys_NoDup. Qed.

Lemma top_meds_In d :
  In d (DashboardOverview.top_meds meds) ->
  In (d, dispensed (rows meds) d) (head 5 ranked).
Proof.
  unfold DashboardOverview.top_meds. fold sums. fold ranked.
  rewrite in_map_iff. intros ([d' s] & E & I). simpl in E. subst d'.
  assert (In (d, s) sums) as Is
      by (apply head_In in I; now apply nargsort_In in I).
  apply sums_In in Is. destruct Is as [_ ->]. exact I.
Qed.

Lemma top_meds_described d :
  In d (DashboardOverview.top_meds meds) ->
  exists r, In r (rows meds) /\ Meds.DESCRIPTION r = Some d.
Proof.
  intros I. apply top_meds_In, head_In, nargsort_In, sums_In in I.
  tauto.
Qed.


End OverviewFacts.

Lemma unique_meds_keys meds :
  DashboardOverview.unique_meds meds
  = Z.of_nat (List.length (groupby_keys String.eqb str_leb Meds.DESCRIPTION
                                        (rows meds))).
Proof.
  unfold DashboardOverview.unique_meds, nunique, groupby_keys.
  f_equal. apply Permutation_length, stable_sort_Permutation.
Qed.

Lemma top_meds_count `{Pandas} meds :
  Z.of_nat (List.length (DashboardOverview.top_meds meds))
  = Z.min 5 (DashboardOverview.unique_meds meds).
Proof.
  rewrite unique_meds_keys.
  unfold DashboardOverview.top_meds, head.
  rewrite length_map, length_firstn.
  rewrite <- (Permutation_length (nargsort_Permutation _ false _)).
  rewrite <- (groupby_sum_keys String.eqb str_leb Meds.DESCRIPTION
                               Meds.DISPENSES (rows meds)).
  rewrite length_map. lia.
Qed.

Lemma load_meds_has_Year `{Pandas} csv :
  has_column "Year" (load_meds csv)
  = has_column "Month" csv || has_column "Year" csv.
Proof.
  unfold load_meds, has_column.
  destruct (existsb (String.eqb "Month") (columns csv));
    cbn [columns orb]; [| reflexivity].
  unfold set_column.
  destruct (existsb (String.eqb "Year") (columns csv)) eqn:Y; [exact Y |].
  rewrite existsb_app, Y. cbn [existsb orb].
  now rewrite String.eqb_refl.
Qed.

Lemma trend_chart `{Pandas} meds :
  has_column "Year" meds = true ->
  DashboardOverview.trend meds
  = plotly_chart
      (map (fun r => {| bar_x := of_num (Meds.Year r);
                        bar_y := of_num (Meds.DISPENSES r);
                        bar_color := Some (of_str (Meds.DESCRIPTION r)) |})
           (rows (DashboardOverview.meds_top meds))).
Proof.
  intros Y. unfold DashboardOverview.trend.
  change (has_column "Year" (DashboardOverview.meds_top meds))
    with (has_column "Year" meds).
  now rewrite Y.
Qed.


(** How the overview runs: it stops at line 59 or 60 on a table without
    [DISPENSES] or [DESCRIPTION], having shown its two headings, and shows
    [page] otherwise. *)
Lemma overview_render `{Pandas} meds :
  run (DashboardOverview.render meds)
  = if has_column "DISPENSES" meds then
      if has_column "DESCRIPTION" meds then
        (DashboardOverview.page meds, Ok tt)
      else
        ([ title "Forecasting Medicine Requirements for a Hospital";
           subheader "Overview of Medicine Usage and Key Metrics" ],
         KeyError "DESCRIPTION")
    else
      ([ title "Forecasting Medicine Requirements for a Hospital";
         subheader "Overview of Medicine Usage and Key Metrics" ],
       KeyError "DISPENSES").
Proof.
  unfold run, DashboardOverview.render, DashboardOverview.page,
    DashboardOverview.metrics, steps, and_then, show, show_all, column,
    finish.
  cbn [List.app].
  destruct (has_column "DISPENSES" meds); [| reflexivity].
  destruct (has_column "DESCRIPTION" meds); reflexivity.
Qed.




(** ** Numbers as the metrics show them *)








(** ** Page 1 and page 4: the scalars *)

(** The sum pandas gives for the column is the 64-bit value of the
    dispenses added up. *)
Lemma sum_of_dispenses meds :
  sum (map Meds.DISPENSES meds) = wrap64 (all_dispensed meds).
Proof.
  unfold sum. f_equal.
  induction meds as [| r meds IH]; simpl; [reflexivity |].
  destruct (Meds.DISPENSES r); simpl; lia.
Qed.






(** ** Columns that are not there *)

(** What the cost metric shows on both pages, decided by the column. *)
Lemma overview_cost_metric `{Pandas} meds v :
  In (metric "Total Cost of Medicines" v) (DashboardOverview.page meds) ->
  v = match DashboardOverview.total_cost meds with
      | Some c => "$" ++ format_comma c
      | None => "N/A"
      end.
Proof.
  unfold DashboardOverview.page, DashboardOverview.metrics,
    DashboardOverview.trend, int.
  cbn [app In].
  destruct (DashboardOverview.total_cost meds);
    destruct (has_column "Year" (DashboardOverview.meds_top meds));
    intros [E | [E | [E | [E | [E | [E | [E | []]]]]]]];
    try discriminate E; now inversion E.
Qed.

Lemma summary_cost_metric `{Pandas} meds v :
  In (metric "Total Cost of Medicines" v) (ExecutiveSummary.page meds) ->
  v = match ExecutiveSummary.total_cost meds with
      | Some c => "$" ++ format_comma c
      | None => "N/A"
      end.
Proof.
  unfold ExecutiveSummary.page, ExecutiveSummary.metrics, int.
  destruct (ExecutiveSummary.total_cost meds);
    destruct (ExecutiveSummary.has_total_cost meds);
    destruct (ExecutiveSummary.has_encounterclass meds);
    cbn [app In]; intros I;
    repeat (destruct I as [E | I]; [try discriminate E; now inversion E |]);
    contradiction.
Qed.

(** How the executive summary and the department page run. *)
Lemma summary_render `{Pandas} meds :
  run (ExecutiveSummary.render meds)
  = if has_column "DISPENSES" meds then
      if has_column "DESCRIPTION" meds then
        (ExecutiveSummary.page meds, Ok tt)
      else
        ([ title "Executive Summary Dashboard";
           subheader
             "Key Insights from Medicine Inventory and Usage Analysis" ],
         KeyError "DESCRIPTION")
    else
      ([ title "Executive Summary Dashboard";
         subheader "Key Insights from Medicine Inventory and Usage Analysis" ],
       KeyError "DISPENSES").
Proof.
  unfold run, ExecutiveSummary.render, ExecutiveSummary.page,
    ExecutiveSummary.metrics, steps, and_then, show, show_all, column,
    finish.
  cbn [List.app].
  destruct (has_column "DISPENSES" meds); [| reflexivity].
  destruct (has_column "DESCRIPTION" meds); [| reflexivity].
  destruct (ExecutiveSummary.has_total_cost meds),
           (ExecutiveSummary.has_encounterclass meds); reflexivity.
Qed.

Lemma department_render `{Pandas} meds :
  run (DepartmentUsage.render meds)
  = if has_column "ENCOUNTERCLASS" meds then
      if has_column "DISPENSES" meds then
        if has_column "DESCRIPTION" meds then
          (DepartmentUsage.page meds, Ok tt)
        else
          ([ title "Medicine Usage by Department";
             plotly_chart
               (px_bar (fun p => Str (fst p)) (fun p => Int (snd p)) None
                       (DepartmentUsage.dept_summary meds));
             markdown
               "#### Top Medicines within Each Department (first 50 rows)" ],
           KeyError "DESCRIPTION")
      else ([ title "Medicine Usage by Department" ], KeyError "DISPENSES")
    else
      ([ title "Medicine Usage by Department";
         info "ENCOUNTERCLASS column not found in medication_summary.csv" ],
       Ok tt).
Proof.
  unfold run, DepartmentUsage.render, DepartmentUsage.page,
    DepartmentUsage.has_encounterclass, steps, and_then, show, column,
    finish.
  cbn [List.app].
  destruct (has_column "ENCOUNTERCLASS" meds); [| reflexivity].
  destruct (has_column "DISPENSES" meds); [| reflexivity].
  destruct (has_column "DESCRIPTION" meds); reflexivity.
Qed.

(** C5. On a table without a [TOTALCOST] column the total cost is no number
    on either page. When the table has [DISPENSES] and [DESCRIPTION] the
    overview and the executive summary run to their end, their cost metric
    reads "N/A", and the summary leaves out its cost chart. Whatever the
    table has, no cost metric with another text is ever shown, "N/A" is the
    rendering of no amount, and the only exceptions the two pages can stop on
    are the [KeyError] for [DISPENSES] or [DESCRIPTION], never one for
    [TOTALCOST]. On a table without an [ENCOUNTERCLASS] column the
    department page runs to its end whatever else the table has: it shows
    its title and one notice, and neither of its two tables. *)
Theorem absent_columns_not_available `{Pandas} (meds : frame Meds.row) :
  (has_column "TOTALCOST" meds = false ->
   DashboardOverview.total_cost meds = None
   /\ ExecutiveSummary.total_cost meds = None
   /\ (has_column "DISPENSES" meds = true ->
       has_column "DESCRIPTION" meds = true ->
       run (DashboardOverview.render meds)
       = (DashboardOverview.page meds, Ok tt)
       /\ run (ExecutiveSummary.render meds)
          = (ExecutiveSummary.page meds, Ok tt)
       /\ In (metric "Total Cost of Medicines" "N/A")
             (DashboardOverview.page meds)
       /\ In (metric "Total Cost of Medicines" "N/A")
             (ExecutiveSummary.page meds)
       /\ ~ In (markdown "#### Top Costliest Medicines")
               (ExecutiveSummary.page meds))
   /\ (forall shown r v,
         run (DashboardOverview.render meds) = (shown, r) ->
         In (metric "Total Cost of Medicines" v) shown -> v = "N/A")
   /\ (forall shown r v,
         run (ExecutiveSummary.render meds) = (shown, r) ->
         In (metric "Total Cost of Medicines" v) shown -> v = "N/A")
   /\ (forall shown r,
         run (DashboardOverview.render meds) = (shown, r) ->
         r = Ok tt \/ r = KeyError "DISPENSES" \/ r = KeyError "DESCRIPTION")
   /\ (forall shown r,
         run (ExecutiveSummary.render meds) = (shown, r) ->
         r = Ok tt \/ r = KeyError "DISPENSES" \/ r = KeyError "DESCRIPTION"))
  /\ (forall n : Z, "N/A" <> "$" ++ format_comma n)
  /\ (has_column "ENCOUNTERCLASS" meds = false ->
      run (DepartmentUsage.render meds)
      = ([ title "Medicine Usage by Department";
           info "ENCOUNTERCLASS column not found in medication_summary.csv" ],
         Ok tt)).
Proof.
  split; [| split].
  - intros C.
    assert (DashboardOverview.total_cost meds = None) as D
        by (unfold DashboardOverview.total_cost,
              DashboardOverview.has_total_cost; now rewrite C).
    assert (ExecutiveSummary.total_cost meds = None) as E
        by (unfold ExecutiveSummary.total_cost,
              ExecutiveSummary.has_total_cost; now rewrite C).
    assert (forall v, In (metric "Total Cost of Medicines" v)
                         (DashboardOverview.page meds) -> v = "N/A") as OnlyO.
    { intros v I. apply overview_cost_metric in I. now rewrite D in I. }
    assert (forall v, In (metric "Total Cost of Medicines" v)
                         (ExecutiveSummary.page meds) -> v = "N/A") as OnlyS.
    { intros v I. apply summary_cost_metric in I. now rewrite E in I. }
    split; [exact D |]. split; [exact E |].
    split; [| split; [| split; [| split]]].
    + intros HD HS. rewrite overview_render, summary_render, HD, HS.
      split; [reflexivity |]. split; [reflexivity |].
      split; [| split].
      * unfold DashboardOverview.page, DashboardOverview.metrics.
        rewrite D. cbn [List.app In]. do 4 right. now left.
      * unfold ExecutiveSummary.page, ExecutiveSummary.metrics.
        rewrite E. cbn [List.app In]. do 4 right. now left.
      * unfold ExecutiveSummary.page, ExecutiveSummary.metrics,
          ExecutiveSummary.has_total_cost.
        rewrite C, E.
        destruct (ExecutiveSummary.has_encounterclass meds);
          cbn [List.app In]; intros I;
          repeat (destruct I as [X | I]; [discriminate X |]);
          contradiction.
    + intros shown r v R I. rewrite overview_render in R.
      destruct (has_column "DISPENSES" meds),
               (has_column "DESCRIPTION" meds);
        inversion R; subst shown;
        try (now apply OnlyO);
        repeat (destruct I as [X | I]; [discriminate X |]); contradiction.
    + intros shown r v R I. rewrite summary_render in R.
      destruct (has_column "DISPENSES" meds),
               (has_column "DESCRIPTION" meds);
        inversion R; subst shown;
        try (now apply OnlyS);
        repeat (destruct I as [X | I]; [discriminate X |]); contradiction.
    + intros shown r R. rewrite overview_render in R.
      destruct (has_column "DISPENSES" meds),
               (has_column "DESCRIPTION" meds);
        inversion R; auto.
    + intros shown r R. rewrite summary_render in R.
      destruct (has_column "DISPENSES" meds),
               (has_column "DESCRIPTION" meds);
        inversion R; auto.
  - intros n. discriminate.
  - intros C. now rewrite department_render, C.
Qed.

Lemma absent_columns_not_available_witness :
  run (DashboardOverview.render (load_meds Sample.without_departments))
  = (DashboardOverview.page (load_meds Sample.without_departments), Ok tt)
  /\ In (metric "Total Cost of Medicines" "N/A")
        (DashboardOverview.page (load_meds Sample.without_departments))
  /\ run (DepartmentUsage.render (load_meds Sample.without_departments))
     = ([ title "Medicine Usage by Department";
          info "ENCOUNTERCLASS column not found in medication_summary.csv" ],
        Ok tt).
Proof.
  destruct (absent_columns_not_available
              (load_meds Sample.without_departments))
    as (Cost & _ & Dept).
  destruct (Cost eq_refl) as (_ & _ & Runs & _).
  destruct (Runs eq_refl eq_refl) as (Overview & _ & Metric & _).
  split; [exact Overview |]. split; [exact Metric |].
  apply Dept. reflexivity.
Defined.

(** On a table that has neither [TOTALCOST] nor [DISPENSES] the overview
    and the executive summary do stop on an exception: the [KeyError] of
    line 59 and of line 182, after their two headings. *)
Lemma absent_cost_pages_stop_without_dispenses :
  has_column "TOTALCOST" Sample.no_dispenses = false
  /\ run (DashboardOverview.render Sample.no_dispenses)
     = ([ title "Forecasting Medicine Requirements for a Hospital";
          subheader "Overview of Medicine Usage and Key Metrics" ],
        KeyError "DISPENSES")
  /\ run (ExecutiveSummary.render Sample.no_dispenses)
     = ([ title "Executive Summary Dashboard";
          subheader
            "Key Insights from Medicine Inventory and Usage Analysis" ],
        KeyError "DISPENSES")
  /\ ~ (exists shown,
          run (DashboardOverview.render Sample.no_dispenses) = (shown, Ok tt)).
Proof.
  split; [reflexivity |]. split; [reflexivity |]. split; [reflexivity |].
  intros (shown & R). vm_compute in R. discriminate R.
Qed.

(** ** Page 2: the medicines that can be compared *)

Lemma StronglySorted_weaken_In (A : Type) (R R' : A -> A -> Prop) l :
  (forall a b, In a l -> In b l -> R a b -> R' a b) ->
  StronglySorted R l -> StronglySorted R' l.
Proof.
  intros W S. induction S as [| x l S IH F]; constructor.
  - apply IH. intros a b Ia Ib. apply W; now right.
  - rewrite Forall_forall in *. intros b Ib.
    apply W; [now left | now right | now apply F].
Qed.

(** A sorted list without duplicates is strictly ascending. *)
Lemma sorted_strict l :
  NoDup l ->
  StronglySorted (fun a b => str_leb a b = true) l ->
  StronglySorted (fun a b => str_ltb a b = true) l.
Proof.
  intros N S. induction S as [| x l S IH F]; constructor.
  - apply IH. now inversion N.
  - inversion N as [| ? ? Nx _]. subst.
    rewrite Forall_forall in *. intros b Ib.
    destruct (proj1 (str_leb_spec x b) (F b Ib)) as [L | ->]; trivial.
    contradiction.
Qed.

Lemma nunique_two col :
  2 <= nunique col <->
  exists a b, a <> b /\ In (Some a) col /\ In (Some b) col.
Proof.
  unfold nunique.
  pose proof (unique_two String.eqb String.eqb_eq (dropna col)) as T.
  setoid_rewrite dropna_In in T. rewrite <- T. lia.
Qed.

Lemma group_types afc m t :
  In (Some t) (map Afc.Type_ (group String.eqb Afc.Medicine m afc)) <->
  has_type afc m t.
Proof.
  unfold has_type. rewrite in_map_iff.
  split; intros (r & A & B); exists r.
  - apply (group_In _ _ String.eqb_eq) in B. tauto.
  - destruct B as [B C]. split; [exact C |].
    apply (group_In _ _ String.eqb_eq). tauto.
Qed.

Section ForecastFacts.
Variable afc : frame Afc.row.

Lemma type_counts_In m n :
  In (m, n) (ForecastingByYear.type_counts afc) <->
  (exists r, In r (rows afc) /\ Afc.Medicine r = Some m)
  /\ n = nunique (map Afc.Type_
                      (group String.eqb Afc.Medicine m (rows afc))).
Proof.
  unfold ForecastingByYear.type_counts.
  now rewrite groupby_nunique_In, groupby_keys_In by apply String.eqb_eq.
Qed.

Lemma med_list_counts m :
  In m (ForecastingByYear.med_list afc) <->
  exists n, In (m, n) (ForecastingByYear.type_counts afc) /\ 2 <= n.
Proof.
  unfold ForecastingByYear.med_list, ForecastingByYear.valid_meds, sorted.
  rewrite stable_sort_In, unique_In by apply String.eqb_eq.
  rewrite dropna_map_Some, in_map_iff.
  split.
  - intros ([m' n] & E & I). simpl in E. subst m'.
    apply filter_In in I. destruct I as [I L]. simpl in L.
    exists n. split; [exact I | now apply Z.leb_le].
  - intros (n & I & L). exists (m, n). split; [reflexivity |].
    apply filter_In. split; [exact I | now apply Z.leb_le].
Qed.

Lemma med_list_In m :
  In m (ForecastingByYear.med_list afc) <->
  exists t1 t2, t1 <> t2 /\ has_type (rows afc) m t1
                /\ has_type (rows afc) m t2.
Proof.
  rewrite med_list_counts. split.
  - intros (n & I & L). apply type_counts_In in I. destruct I as [_ ->].
    apply nunique_two in L. destruct L as (a & b & D & Ia & Ib).
    exists a, b. now rewrite <- !group_types.
  - intros (a & b & D & Ia & Ib).
    exists (nunique (map Afc.Type_
                         (group String.eqb Afc.Medicine m (rows afc)))).
    split.
    + apply type_counts_In. split; [| reflexivity].
      destruct Ia as (r & I & M & _). eauto.
    + apply nunique_two. exists a, b. now rewrite !group_types.
Qed.

Lemma med_list_NoDup : NoDup (ForecastingByYear.med_list afc).
Proof.
  unfold ForecastingByYear.med_list, sorted.
  eapply Permutation_NoDup; [apply stable_sort_Permutation |].
  apply unique_NoDup, String.eqb_eq.
Qed.

Lemma med_list_ascending :
  StronglySorted (fun a b => str_ltb a b = true)
                 (ForecastingByYear.med_list afc).
Proof.
  apply sorted_strict; [apply med_list_NoDup |].
  unfold ForecastingByYear.med_list, sorted.
  apply stable_sort_StronglySorted.
  - apply str_leb_total.
  - apply str_leb_trans.
Qed.
End ForecastFacts.

Lemma load_afc_origin `{Pandas} csv r :
  In r (rows (load_afc csv)) ->
  exists r0, In r0 (rows csv)
             /\ AfcCsv.Medicine r0 = Afc.Medicine r
             /\ AfcCsv.Type_ r0 = Afc.Type_ r
             /\ AfcCsv.Value r0 = Afc.Value r.
Proof.
  unfold load_afc. destruct (has_column "Year" csv); cbn [rows].
  - rewrite filter_In, in_map_iff. intros [(r0 & <- & I) _]. eauto.
  - rewrite in_map_iff. intros (r0 & <- & I). eauto.
Qed.

(** C2. The list offered for comparison holds exactly the medicines that
    some row records with one type and some row with another; it is
    strictly ascending in the order of strings, so sorted and free of
    duplicates. A medicine all of whose rows carry one and the same type (or
    none) is not offered, however many rows it has. Every medicine offered
    after loading has two types among the rows of the file. *)
Theorem comparison_list_two_types `{Pandas} (afc : frame Afc.row) :
  (forall m,
      In m (ForecastingByYear.med_list afc) <->
      exists t1 t2, t1 <> t2 /\ has_type (rows afc) m t1
                    /\ has_type (rows afc) m t2)
  /\ StronglySorted (fun a b => str_ltb a b = true)
                    (ForecastingByYear.med_list afc)
  /\ NoDup (ForecastingByYear.med_list afc)
  /\ (forall m t,
        (forall r, In r (rows afc) -> Afc.Medicine r = Some m ->
                   Afc.Type_ r = Some t \/ Afc.Type_ r = None) ->
        ~ In m (ForecastingByYear.med_list afc))
  /\ (forall csv m,
        In m (ForecastingByYear.med_list (load_afc csv)) ->
        exists t1 t2 r1 r2,
          t1 <> t2 /\ In r1 (rows csv) /\ In r2 (rows csv)
          /\ AfcCsv.Medicine r1 = Some m /\ AfcCsv.Type_ r1 = Some t1
          /\ AfcCsv.Medicine r2 = Some m /\ AfcCsv.Type_ r2 = Some t2).
Proof.
  split; [apply med_list_In |].
  split; [apply med_list_ascending |].
  split; [apply med_list_NoDup |].
  split.
  - intros m t One I. apply med_list_In in I.
    destruct I as (t1 & t2 & D & (r1 & I1 & M1 & T1) & (r2 & I2 & M2 & T2)).
    destruct (One r1 I1 M1) as [E1 | E1]; [| congruence].
    destruct (One r2 I2 M2) as [E2 | E2]; congruence.
  - intros csv m I. apply med_list_In in I.
    destruct I as (t1 & t2 & D & (r1 & I1 & M1 & T1) & (r2 & I2 & M2 & T2)).
    apply load_afc_origin in I1, I2.
    destruct I1 as (s1 & J1 & A1 & B1 & _), I2 as (s2 & J2 & A2 & B2 & _).
    exists t1, t2, s1, s2. repeat split; trivial; congruence.
Qed.

Lemma comparison_list_two_types_witness :
  ~ In "X" (ForecastingByYear.med_list
              (load_afc Sample.actual_forecast_combined)).
Proof.
  destruct (comparison_list_two_types
              (load_afc Sample.actual_forecast_combined))
    as (_ & _ & _ & One & _).
  apply (One "X" "Actual").
  intros r I M. vm_compute in I.
  repeat (destruct I as [<- | I]; [first [discriminate M | now left] |]).
  contradiction.
Defined.

(** ** Page 2: rows without a medicine *)

Lemma dropna_filter_is_some (R K : Type) (key : R -> option K) l :
  dropna (map key (filter (fun r => is_some (key r)) l))
  = dropna (map key l).
Proof.
  induction l as [| r l IH]; simpl; [reflexivity |].
  destruct (key r) eqn:E; simpl; rewrite ?E; now rewrite IH.
Qed.

Lemma group_filter_is_some (R K : Type) (eqb : K -> K -> bool)
      (key : R -> option K) k l :
  group eqb key k (filter (fun r => is_some (key r)) l) = group eqb key k l.
Proof.
  unfold group. induction l as [| r l IH]; simpl; [reflexivity |].
  destruct (key r) eqn:E; simpl; rewrite ?E; now rewrite IH.
Qed.

Lemma med_list_named afc m :
  In m (ForecastingByYear.med_list afc) ->
  exists r, In r (rows afc) /\ Afc.Medicine r = Some m.
Proof.
  intros I. apply med_list_In in I.
  destruct I as (t1 & _ & _ & (r & I & M & _) & _). eauto.
Qed.

(** C10. The list offered for comparison never reflects a row without a
    medicine name: every medicine offered is the name some row carries, the
    list is the same with the nameless rows removed from the table, and a
    table of nameless rows only offers nothing, whatever types its rows
    have. *)
Theorem comparison_list_ignores_nameless (afc : frame Afc.row) :
  (forall m, In m (ForecastingByYear.med_list afc) ->
             exists r, In r (rows afc) /\ Afc.Medicine r = Some m)
  /\ ForecastingByYear.med_list afc
     = ForecastingByYear.med_list
         {| columns := columns afc;
            rows := filter (fun r => is_some (Afc.Medicine r)) (rows afc) |}
  /\ ((forall r, In r (rows afc) -> Afc.Medicine r = None) ->
      ForecastingByYear.med_list afc = []).
Proof.
  split; [apply med_list_named |]. split.
  - unfold ForecastingByYear.med_list, ForecastingByYear.valid_meds,
      ForecastingByYear.type_counts, groupby_nunique, groupby_keys.
    cbn [rows]. rewrite dropna_filter_is_some.
    do 5 f_equal. apply map_ext. intros k.
    now rewrite group_filter_is_some.
  - intros Nameless.
    destruct (ForecastingByYear.med_list afc) as [| m l] eqn:E; trivial.
    assert (In m (ForecastingByYear.med_list afc)) as Offered
        by (rewrite E; now left).
    destruct (med_list_named _ _ Offered) as (r & I & M).
    rewrite (Nameless r I) in M. discriminate.
Qed.

Lemma comparison_list_ignores_nameless_witness :
  ForecastingByYear.med_list
    {| columns := ["Medicine"; "Year"; "Type"; "Value"];
       rows := [ {| Afc.Medicine := None; Afc.Year := Some 2021;
                    Afc.Type_ := Some "Actual"; Afc.Value := Some 3 |};
                 {| Afc.Medicine := None; Afc.Year := Some 2022;
                    Afc.Type_ := Some "Forecast"; Afc.Value := Some 4 |} ] |}
  = [].
Proof.
  apply comparison_list_ignores_nameless.
  intros r [<- | [<- | []]]; reflexivity.
Defined.

(** ** Page 2: the selected medicine, and a file without years *)

Section ComparisonFacts.
Context `{Pandas}.

Lemma nargsort_ascending (A : Type) (key : A -> option Z) l :
  (forall a, In a l -> is_some (key a) = true) ->
  nargsort key true l
  = quicksort (fun a => match key a with Some z => z | None => 0 end) l.
Proof.
  intros S. unfold nargsort.
  rewrite filter_all by exact S.
  rewrite filter_none by (intros a I; now rewrite S).
  apply app_nil_r.
Qed.

Lemma df_med_Ok afc i :
  has_column "Year" afc = true ->
  ForecastingByYear.df_med afc i
  = Ok {| columns := columns afc;
          rows := nargsort Afc.Year true
                    (filter (fun r => eq_cell (Afc.Medicine r)
                               (ForecastingByYear.selected_medicine afc i))
                            (rows afc)) |}.
Proof.
  intros Y. unfold ForecastingByYear.df_med.
  change (has_column "Year" _) with (has_column "Year" afc).
  now rewrite Y.
Qed.

(** Without a [Year] column the sort raises. *)
Lemma df_med_KeyError afc i :
  has_column "Year" afc = false ->
  ForecastingByYear.df_med afc i = KeyError "Year".
Proof.
  intros Y. unfold ForecastingByYear.df_med.
  change (has_column "Year" _) with (has_column "Year" afc).
  now rewrite Y.
Qed.

(** How the forecast page runs. *)
Lemma forecast_render afc i :
  run (ForecastingByYear.render afc i)
  = if has_column "Medicine" afc then
      if has_column "Type" afc then
        match ForecastingByYear.df_med afc i with
        | Ok df =>
            if has_column "Value" df then
              ([ title "Medicine Forecasting by Year";
                 selectbox_widget "Select Medicine"
                                  (ForecastingByYear.med_list afc);
                 markdown (ForecastingByYear.heading afc i);
                 ForecastingByYear.chart df ],
               Ok tt)
            else
              ([ title "Medicine Forecasting by Year";
                 selectbox_widget "Select Medicine"
                                  (ForecastingByYear.med_list afc);
                 markdown (ForecastingByYear.heading afc i) ],
               ValueError "Value")
        | KeyError c =>
            ([ title "Medicine Forecasting by Year";
               selectbox_widget "Select Medicine"
                                (ForecastingByYear.med_list afc) ],
             KeyError c)
        | ValueError c =>
            ([ title "Medicine Forecasting by Year";
               selectbox_widget "Select Medicine"
                                (ForecastingByYear.med_list afc) ],
             ValueError c)
        end
      else ([ title "Medicine Forecasting by Year" ], KeyError "Type")
    else ([ title "Medicine Forecasting by Year" ], KeyError "Medicine").
Proof.
  unfold run, ForecastingByYear.render, steps, and_then, show, column,
    px_column, lift, finish.
  cbn [List.app].
  destruct (has_column "Medicine" afc); [| reflexivity].
  destruct (has_column "Type" afc); [| reflexivity].
  destruct (ForecastingByYear.df_med afc i) as [df | c | c];
    [| reflexivity | reflexivity].
  destruct (has_column "Value" df); reflexivity.
Qed.

Lemma loaded_year_in_range csv r :
  has_column "Year" csv = true ->
  In r (rows (load_afc csv)) -> year_in_range (Afc.Year r).
Proof.
  intros Y. rewrite (load_afc_rows _ Y), filter_In.
  intros [_ I]. now apply in_range_spec.
Qed.
End ComparisonFacts.

(** C6. A forecast file without a [Year] column, with its [Medicine] and
    [Type] columns, is loaded with all its rows, the loader reading [Year]
    only when the file has it. On the loaded table, whatever the selector
    holds, so also for a medicine of the list offered, no comparison is
    computed: the sort by year raises [KeyError] for [Year], and the page
    stops after its title and its selector, without heading, rows or
    chart. *)
Theorem comparison_raises_without_year `{Pandas}
        (csv : frame AfcCsv.row) (i : nat) :
  has_column "Year" csv = false ->
  has_column "Medicine" csv = true ->
  has_column "Type" csv = true ->
  List.length (rows (load_afc csv)) = List.length (rows csv)
  /\ ForecastingByYear.df_med (load_afc csv) i = KeyError "Year"
  /\ (forall df, ForecastingByYear.df_med (load_afc csv) i <> Ok df)
  /\ run (ForecastingByYear.render (load_afc csv) i)
     = ([ title "Medicine Forecasting by Year";
          selectbox_widget "Select Medicine"
                           (ForecastingByYear.med_list (load_afc csv)) ],
        KeyError "Year").
Proof.
  intros Y M T.
  assert (forall c, has_column c (load_afc csv) = has_column c csv) as Same
      by (intros c; unfold has_column; now rewrite load_afc_columns).
  assert (ForecastingByYear.df_med (load_afc csv) i = KeyError "Year") as D
      by (apply df_med_KeyError; now rewrite Same).
  split; [| split; [exact D | split]].
  - unfold load_afc. rewrite Y. cbn [rows]. apply length_map.
  - intros df E. rewrite D in E. discriminate E.
  - rewrite forecast_render, !Same, M, T, D. reflexivity.
Qed.

Lemma comparison_raises_without_year_witness :
  ForecastingByYear.selected_medicine (load_afc Sample.undated_forecast) 0
  = Some "Insulin"
  /\ In "Insulin" (ForecastingByYear.med_list
                     (load_afc Sample.undated_forecast))
  /\ ForecastingByYear.df_med (load_afc Sample.undated_forecast) 0
     = KeyError "Year"
  /\ run (ForecastingByYear.render (load_afc Sample.undated_forecast) 0)
     = ([ title "Medicine Forecasting by Year";
          selectbox_widget "Select Medicine" ["Insulin"] ],
        KeyError "Year").
Proof.
  destruct (comparison_raises_without_year Sample.undated_forecast 0
              eq_refl eq_refl eq_refl) as (_ & Raises & _ & Stops).
  split; [vm_compute; reflexivity |].
  split; [vm_compute; now left |].
  split; [exact Raises |].
  rewrite Stops. vm_compute. reflexivity.
Defined.

(** ** Page 3: the medicines per department *)

Lemma pair_eqb_eq (a b : string * string) : pair_eqb a b = true <-> a = b.
Proof.
  destruct a as [a1 a2], b as [b1 b2]. unfold pair_eqb. simpl.
  rewrite andb_true_iff, !String.eqb_eq. split.
  - intros [-> ->]. reflexivity.
  - intros E. inversion E. auto.
Qed.

Lemma dept_leb_spec a b : dept_leb a b = true <-> dept_order a b.
Proof.
  unfold dept_leb, dept_order.
  now rewrite orb_true_iff, andb_true_iff, String.eqb_eq, Z.leb_le.
Qed.

Lemma dept_leb_total a b : dept_leb a b = false -> dept_leb b a = true.
Proof.
  intros F. apply dept_leb_spec.
  assert (~ dept_order a b) as N
      by (rewrite <- dept_leb_spec, F; discriminate).
  unfold dept_order in *.
  destruct (str_trichotomy (fst (fst a)) (fst (fst b))) as [L | [E | L]].
  - elim N. auto.
  - right. split; [congruence |].
    destruct (Z_le_gt_dec (snd b) (snd a)); [elim N; auto | lia].
  - auto.
Qed.

Lemma dept_order_trans a b c :
  dept_order a b -> dept_order b c -> dept_order a c.
Proof.
  unfold dept_order.
  intros [L1 | [E1 S1]] [L2 | [E2 S2]].
  - left. eapply str_ltb_trans; eauto.
  - left. now rewrite <- E2.
  - left. now rewrite E1.
  - right. split; [congruence | lia].
Qed.

Lemma dept_leb_trans a b c :
  dept_leb a b = true -> dept_leb b c = true -> dept_leb a c = true.
Proof. rewrite !dept_leb_spec. apply dept_order_trans. Qed.

Lemma dept_row_eq_dec (a b : string * string * Z) : {a = b} + {a <> b}.
Proof.
  decide equality; [apply Z.eq_dec |].
  decide equality; apply string_dec.
Defined.

(** The sum pandas gives for the rows of one medicine in one department is
    the 64-bit value of their dispenses added up. *)
Lemma sum_of_department_and_description meds e d :
  sum (map Meds.DISPENSES
           (filter (fun r => eq_cell (Meds.ENCOUNTERCLASS r) (Some e)
                             && eq_cell (Meds.DESCRIPTION r) (Some d))
                   meds))
  = wrap64 (dispensed_in_exactly meds e d).
Proof.
  unfold sum. f_equal.
  induction meds as [| r meds IH]; simpl; [reflexivity |].
  destruct (Meds.ENCOUNTERCLASS r) as [e' |]; simpl; [| exact IH].
  destruct (Meds.DESCRIPTION r) as [d' |]; simpl;
    [| now rewrite andb_false_r].
  destruct (String.eqb e' e && String.eqb d' d); simpl.
  - destruct (Meds.DISPENSES r); simpl; lia.
  - destruct (Meds.DISPENSES r); simpl; lia.
Qed.

Section DepartmentFacts.
Context `{Pandas}.
Variable meds : frame Meds.row.

Let grouped : list (string * string * Z) :=
  groupby_sum pair_eqb pair_leb class_and_description Meds.DISPENSES
              (rows meds).

Lemma top_by_dept_Permutation :
  Permutation grouped (DepartmentUsage.top_by_dept meds).
Proof. apply stable_sort_Permutation. Qed.

Lemma top_by_dept_sorted :
  StronglySorted dept_order (DepartmentUsage.top_by_dept meds).
Proof.
  eapply StronglySorted_weaken_In.
  - intros a b _ _ L. apply dept_leb_spec, L.
  - apply stable_sort_StronglySorted.
    + apply dept_leb_total.
    + apply dept_leb_trans.
Qed.

Lemma top_by_dept_pairs_NoDup :
  NoDup (map fst (DepartmentUsage.top_by_dept meds)).
Proof.
  eapply Permutation_NoDup.
  - apply Permutation_map, top_by_dept_Permutation.
  - unfold grouped. rewrite groupby_sum_keys.
    apply groupby_keys_NoDup, pair_eqb_eq.
Qed.

Lemma class_and_description_spec r e d :
  class_and_description r = Some (e, d) <->
  Meds.ENCOUNTERCLASS r = Some e /\ Meds.DESCRIPTION r = Some d.
Proof.
  unfold class_and_description.
  destruct (Meds.ENCOUNTERCLASS r), (Meds.DESCRIPTION r);
    split; try intros [A B]; try intros A; try discriminate;
    [inversion A; auto | congruence].
Qed.

Lemma top_by_dept_In e d s :
  In (e, d, s) (DepartmentUsage.top_by_dept meds) <->
  (exists r, In r (rows meds) /\ Meds.ENCOUNTERCLASS r = Some e
             /\ Meds.DESCRIPTION r = Some d)
  /\ s = sum (map Meds.DISPENSES
                  (filter (fun r => eq_cell (Meds.ENCOUNTERCLASS r) (Some e)
                                    && eq_cell (Meds.DESCRIPTION r) (Some d))
                          (rows meds))).
Proof.
  unfold DepartmentUsage.top_by_dept.
  rewrite stable_sort_In, groupby_sum_In, groupby_keys_In
    by apply pair_eqb_eq.
  setoid_rewrite class_and_description_spec.
  assert (group pair_eqb class_and_description (e, d) (rows meds)
          = filter (fun r => eq_cell (Meds.ENCOUNTERCLASS r) (Some e)
                             && eq_cell (Meds.DESCRIPTION r) (Some d))
                   (rows meds)) as ->; [| tauto].
  unfold group. apply filter_ext. intros r.
  unfold class_and_description, pair_eqb.
  now destruct (Meds.ENCOUNTERCLASS r), (Meds.DESCRIPTION r);
    simpl; rewrite ?andb_false_r.
Qed.
End DepartmentFacts.

(** C3. The second table of the department page is the first 50 rows of
    [top_by_dept], which has one row per pair of department and medicine
    with the pair's summed dispenses (on a [DISPENSES] column of 64-bit
    integers the 64-bit value of the pair's dispenses added up, so their sum
    whenever that is a 64-bit integer) and is ordered by department
    ascending, then by dispenses descending. The table has 50 rows when [top_by_dept]
    has 50 or more and all of them otherwise, so never more than 50; its
    row at any position below 50 is the row of [top_by_dept] at that
    position; it keeps the order; of two of its rows in the same department
    the later has no more dispenses than the earlier; and the cut is one cut
    of the whole sequence: a row of [top_by_dept] that is not shown stands
    in the order after every row shown, so a row whose department comes
    strictly before the department of a row shown is itself shown. On a
    table with its [ENCOUNTERCLASS], [DISPENSES] and [DESCRIPTION] columns
    the page runs to its end and that table is the last thing it shows. *)
Theorem department_table_first_fifty `{Pandas} (meds : frame Meds.row) :
  (List.length (head 50 (DepartmentUsage.top_by_dept meds)) <= 50)%nat
  /\ List.length (head 50 (DepartmentUsage.top_by_dept meds))
     = Nat.min 50 (List.length (DepartmentUsage.top_by_dept meds))
  /\ (forall k, (k < 50)%nat ->
                nth_error (head 50 (DepartmentUsage.top_by_dept meds)) k
                = nth_error (DepartmentUsage.top_by_dept meds) k)
  /\ (forall k, (50 <= k)%nat ->
                nth_error (head 50 (DepartmentUsage.top_by_dept meds)) k
                = None)
  /\ (exists rest,
        DepartmentUsage.top_by_dept meds
        = (head 50 (DepartmentUsage.top_by_dept meds) ++ rest)%list)
  /\ NoDup (map fst (DepartmentUsage.top_by_dept meds))
  /\ (forall e d s,
        In (e, d, s) (DepartmentUsage.top_by_dept meds) <->
        (exists r, In r (rows meds) /\ Meds.ENCOUNTERCLASS r = Some e
                   /\ Meds.DESCRIPTION r = Some d)
        /\ s = sum (map Meds.DISPENSES
                        (filter (fun r =>
                                   eq_cell (Meds.ENCOUNTERCLASS r) (Some e)
                                   && eq_cell (Meds.DESCRIPTION r) (Some d))
                                (rows meds))))
  /\ (int64_column (map Meds.DISPENSES (rows meds)) = true ->
      forall e d s,
        In (e, d, s) (DepartmentUsage.top_by_dept meds) ->
        s = wrap64 (dispensed_in_exactly (rows meds) e d)
        /\ (is_int64 (dispensed_in_exactly (rows meds) e d) = true ->
            s = dispensed_in_exactly (rows meds) e d))
  /\ StronglySorted dept_order (DepartmentUsage.top_by_dept meds)
  /\ StronglySorted dept_order (head 50 (DepartmentUsage.top_by_dept meds))
  /\ (forall l1 a l2 b l3,
        head 50 (DepartmentUsage.top_by_dept meds)
        = (l1 ++ a :: l2 ++ b :: l3)%list ->
        str_leb (fst (fst a)) (fst (fst b)) = true
        /\ (fst (fst a) = fst (fst b) -> snd b <= snd a))
  /\ (forall a b,
        In a (DepartmentUsage.top_by_dept meds) ->
        In b (head 50 (DepartmentUsage.top_by_dept meds)) ->
        ~ In a (head 50 (DepartmentUsage.top_by_dept meds)) ->
        dept_order b a)
  /\ (forall a b,
        In a (DepartmentUsage.top_by_dept meds) ->
        In b (head 50 (DepartmentUsage.top_by_dept meds)) ->
        str_ltb (fst (fst a)) (fst (fst b)) = true ->
        In a (head 50 (DepartmentUsage.top_by_dept meds)))
  /\ (has_column "ENCOUNTERCLASS" meds = true ->
      In (dataframe ["ENCOUNTERCLASS"; "DESCRIPTION"; "DISPENSES"]
                    (map (fun p => [Str (fst (fst p)); Str (snd (fst p));
                                    Int (snd p)])
                         (head 50 (DepartmentUsage.top_by_dept meds))))
         (DepartmentUsage.page meds))
  /\ (has_column "ENCOUNTERCLASS" meds = true ->
      has_column "DISPENSES" meds = true ->
      has_column "DESCRIPTION" meds = true ->
      exists before,
        run (DepartmentUsage.render meds)
        = ((before ++
            [ dataframe ["ENCOUNTERCLASS"; "DESCRIPTION"; "DISPENSES"]
                        (map (fun p => [Str (fst (fst p)); Str (snd (fst p));
                                        Int (snd p)])
                             (head 50 (DepartmentUsage.top_by_dept meds))) ])
             %list,
           Ok tt)).
Proof.
  pose proof (top_by_dept_sorted meds) as S.
  assert (forall a b,
             In a (DepartmentUsage.top_by_dept meds) ->
             In b (head 50 (DepartmentUsage.top_by_dept meds)) ->
             ~ In a (head 50 (DepartmentUsage.top_by_dept meds)) ->
             dept_order b a) as Cut.
  { intros a b Ia Ib Na. eapply head_cut; eauto. }
  split; [apply head_length |].
  split; [unfold head; apply length_firstn |].
  split; [intros k K; unfold head; rewrite nth_error_firstn;
          apply Nat.ltb_lt in K; now rewrite K |].
  split; [intros k K; apply nth_error_None;
          pose proof (head_length 50 (DepartmentUsage.top_by_dept meds));
          lia |].
  split; [exists (skipn 50 (DepartmentUsage.top_by_dept meds));
          unfold head; now rewrite firstn_skipn |].
  split; [apply top_by_dept_pairs_NoDup |].
  split; [apply top_by_dept_In |].
  split.
  { intros _ e d s I. apply top_by_dept_In in I. destruct I as [_ ->].
    rewrite sum_of_department_and_description.
    split; [reflexivity | apply wrap64_int64]. }
  split; [exact S |].
  split; [now apply StronglySorted_firstn |].
  split; [| split; [exact Cut | split; [| split]]].
  - intros l1 a l2 b l3 E.
    assert (dept_order a b) as O.
    { apply (StronglySorted_firstn 50) in S. unfold head in E.
      rewrite E in S. now apply StronglySorted_split in S. }
    destruct O as [L | [Eq Le]].
    + split; [apply str_leb_spec; now left |].
      intros Eq. rewrite Eq, str_ltb_irrefl in L. discriminate.
    + split; [apply str_leb_spec; now right | trivial].
  - intros a b Ia Ib L.
    destruct (in_dec dept_row_eq_dec
                     a (head 50 (DepartmentUsage.top_by_dept meds)))
      as [Shown | Hidden]; [exact Shown | exfalso].
    destruct (Cut a b Ia Ib Hidden) as [L' | [Eq _]].
    + rewrite (str_ltb_asym _ _ L) in L'. discriminate.
    + rewrite Eq, str_ltb_irrefl in L. discriminate.
  - intros C. unfold DepartmentUsage.page, DepartmentUsage.has_encounterclass.
    rewrite C. cbn [In]. do 3 right. now left.
  - intros C D N. rewrite department_render, C, D, N.
    unfold DepartmentUsage.page, DepartmentUsage.has_encounterclass.
    rewrite C. eexists [_; _; _]. reflexivity.
Qed.

Lemma department_table_first_fifty_witness :
  List.length (DepartmentUsage.top_by_dept Sample.crowded) = 52%nat
  /\ List.length (head 50 (DepartmentUsage.top_by_dept Sample.crowded))
     = 50%nat
  /\ nth_error (head 50 (DepartmentUsage.top_by_dept Sample.crowded)) 0
     = Some ("ambulatory", "M150", 150)
  /\ nth_error (head 50 (DepartmentUsage.top_by_dept Sample.crowded)) 49
     = Some ("ambulatory", "M101", 101)
  /\ nth_error (head 50 (DepartmentUsage.top_by_dept Sample.crowded)) 50
     = None
  /\ (exists before,
        run (DepartmentUsage.render Sample.crowded)
        = ((before ++
            [ dataframe ["ENCOUNTERCLASS"; "DESCRIPTION"; "DISPENSES"]
                        (map (fun p => [Str (fst (fst p)); Str (snd (fst p));
                                        Int (snd p)])
                             (head 50 (DepartmentUsage.top_by_dept
                                         Sample.crowded))) ])%list,
           Ok tt)).
Proof.
  assert (List.length (DepartmentUsage.top_by_dept Sample.crowded) = 52%nat)
    as All by (vm_compute; reflexivity).
  destruct (department_table_first_fifty Sample.crowded)
    as (_ & Rows & Same & Cut & _ & _ & _ & _ & _ & _ & _ & _ & _ & _ & Page).
  split; [exact All |].
  split; [rewrite Rows, All; reflexivity |].
  split; [rewrite Same by lia; vm_compute; reflexivity |].
  split; [rewrite Same by lia; vm_compute; reflexivity |].
  split; [apply Cut; lia |].
  apply Page; reflexivity.
Defined.

(** ** Page 3 and page 4: the dispenses per department *)

Section SummaryFacts.
Context `{Pandas}.


Lemma dept_summary_In meds e s :
  In (e, s) (DepartmentUsage.dept_summary meds) <->
  (exists r, In r (rows meds) /\ Meds.ENCOUNTERCLASS r = Some e)
  /\ s = sum (map Meds.DISPENSES
                  (filter (fun r => eq_cell (Meds.ENCOUNTERCLASS r) (Some e))
                          (rows meds))).
Proof.
  unfold DepartmentUsage.dept_summary.
  rewrite nargsort_In, groupby_sum_In, groupby_keys_In
    by apply String.eqb_eq.
  assert (group String.eqb Meds.ENCOUNTERCLASS e (rows meds)
          = filter (fun r => eq_cell (Meds.ENCOUNTERCLASS r) (Some e))
                   (rows meds)) as ->; [| tauto].
  unfold group. apply filter_ext. intros r.
  now destruct (Meds.ENCOUNTERCLASS r).
Qed.
End SummaryFacts.

(** C9. With an [ENCOUNTERCLASS] column the executive summary computes the
    same department table as the department page, row for row, and both
    pages draw the same chart from it. The table has one row per department
    of the loaded rows with the department's summed dispenses, and is in
    descending order of that sum. *)
Theorem summary_department_table `{Pandas} (meds : frame Meds.row) :
  has_column "ENCOUNTERCLASS" meds = true ->
  ExecutiveSummary.dept_summary meds = DepartmentUsage.dept_summary meds
  /\ (exists chart,
        chart = plotly_chart
                  (map (fun p => {| bar_x := Str (fst p);
                                    bar_y := Int (snd p);
                                    bar_color := None |})
                       (DepartmentUsage.dept_summary meds))
        /\ In chart (DepartmentUsage.page meds)
        /\ In chart (ExecutiveSummary.page meds))
  /\ NoDup (map fst (DepartmentUsage.dept_summary meds))
  /\ (forall e s,
        In (e, s) (DepartmentUsage.dept_summary meds) <->
        (exists r, In r (rows meds) /\ Meds.ENCOUNTERCLASS r = Some e)
        /\ s = sum (map Meds.DISPENSES
                        (filter (fun r => eq_cell (Meds.ENCOUNTERCLASS r)
                                                  (Some e))
                                (rows meds))))
  /\ StronglySorted (fun a b => snd b <= snd a)
                    (DepartmentUsage.dept_summary meds).
Proof.
  intros C.
  split; [reflexivity |].
  split; [| split; [| split]].
  - eexists. split; [reflexivity |]. split.
    + unfold DepartmentUsage.page, DepartmentUsage.has_encounterclass.
      rewrite C. cbn [In]. right. now left.
    + unfold ExecutiveSummary.page, ExecutiveSummary.has_encounterclass.
      rewrite C.
      do 3 (apply in_or_app; right). apply in_or_app. left.
      cbn [In]. right. now left.
  - eapply Permutation_NoDup.
    + apply Permutation_map. unfold DepartmentUsage.dept_summary.
      apply nargsort_Permutation.
    + rewrite groupby_sum_keys. apply groupby_keys_NoDup, String.eqb_eq.
  - apply dept_summary_In.
  - unfold DepartmentUsage.dept_summary.
    apply nargsort_descending_StronglySorted.
Qed.

Lemma summary_department_table_witness :
  ExecutiveSummary.dept_summary (load_meds Sample.medication_summary)
  = DepartmentUsage.dept_summary (load_meds Sample.medication_summary).
Proof.
  apply (summary_department_table (load_meds Sample.medication_summary)).
  reflexivity.
Defined.

(** ** The loader: the years kept *)

Section RangeFacts.
Context `{Pandas}.



End RangeFacts.



(** ** The cut of the department table, on a crowded department *)

(** With 51 medicines in the first department the table shows 50 of them
    and nothing of the second department, whose only row has more dispenses
    than any row shown. *)
Lemma department_cut_is_global :
  List.length (head 50 (DepartmentUsage.top_by_dept Sample.crowded)) = 50%nat
  /\ Forall (fun p => fst (fst p) = "ambulatory")
            (head 50 (DepartmentUsage.top_by_dept Sample.crowded))
  /\ In ("wellness", "Zinc", 1000) (DepartmentUsage.top_by_dept Sample.crowded)
  /\ ~ In ("wellness", "Zinc", 1000)
          (head 50 (DepartmentUsage.top_by_dept Sample.crowded)).
Proof.
  assert (Forall (fun p : string * string * Z => fst (fst p) = "ambulatory")
                 (head 50 (DepartmentUsage.top_by_dept Sample.crowded)))
    as Shown by (vm_compute; repeat constructor).
  split; [vm_compute; reflexivity |].
  split; [exact Shown |].
  split.
  - vm_compute. do 51 right. now left.
  - intros I. rewrite Forall_forall in Shown.
    apply Shown in I. discriminate I.
Qed.

(* ================================================================= *)
(** * Further properties of the loader and of the pages *)

(** ** The loader on files without the date columns *)

Lemma quicksort_nil `{Pandas} (A : Type) (k : A -> Z) : quicksort k [] = [].
Proof. apply Permutation_nil, quicksort_Permutation. Qed.

Lemma load_meds_has_column `{Pandas} csv c :
  has_column c (load_meds csv)
  = has_column c csv || (String.eqb c "Year" && has_column "Month" csv).
Proof.
  unfold load_meds, has_column.
  destruct (existsb (String.eqb "Month") (columns csv));
    cbn [columns]; [| now rewrite andb_false_r, orb_false_r].
  rewrite andb_true_r. unfold set_column.
  destruct (existsb (String.eqb "Year") (columns csv)) eqn:Y.
  - destruct (String.eqb_spec c "Year") as [-> | _].
    + now rewrite Y.
    + now rewrite orb_false_r.
  - rewrite existsb_app. cbn [existsb]. now rewrite orb_false_r.
Qed.

(** X1. A medication file without a [Month] column is loaded as it is: the
    columns are the file's, no row is dropped whatever its year, and every
    cell the pages read is the file's, so the overview totals every row of
    the file. *)
Theorem medication_without_month_unfiltered `{Pandas}
        (csv : frame MedsCsv.row) :
  has_column "Month" csv = false ->
  columns (load_meds csv) = columns csv
  /\ List.length (rows (load_meds csv)) = List.length (rows csv)
  /\ map Meds.Year (rows (load_meds csv)) = map MedsCsv.Year (rows csv)
  /\ map Meds.DESCRIPTION (rows (load_meds csv))
     = map MedsCsv.DESCRIPTION (rows csv)
  /\ map Meds.DISPENSES (rows (load_meds csv))
     = map MedsCsv.DISPENSES (rows csv)
  /\ map Meds.TOTALCOST (rows (load_meds csv))
     = map MedsCsv.TOTALCOST (rows csv)
  /\ map Meds.ENCOUNTERCLASS (rows (load_meds csv))
     = map MedsCsv.ENCOUNTERCLASS (rows csv)
  /\ DashboardOverview.total_dispenses (load_meds csv)
     = sum (map MedsCsv.DISPENSES (rows csv))
  /\ DashboardOverview.unique_meds (load_meds csv)
     = nunique (map MedsCsv.DESCRIPTION (rows csv)).
Proof.
  intros M.
  assert (load_meds csv
          = {| columns := columns csv; rows := map as_read (rows csv) |})
    as E by (unfold load_meds; now rewrite M).
  unfold DashboardOverview.total_dispenses, DashboardOverview.unique_meds.
  rewrite E. cbn [columns rows]. rewrite length_map, !map_map.
  repeat split; reflexivity.
Qed.

Lemma medication_without_month_unfiltered_witness :
  map Meds.Year (rows (load_meds Sample.yearly)) = [Some 1999; Some 2021]
  /\ DashboardOverview.total_dispenses (load_meds Sample.yearly) = 1009.
Proof.
  destruct (medication_without_month_unfiltered Sample.yearly eq_refl)
    as (_ & _ & Years & _ & _ & _ & _ & Total & _).
  rewrite Years, Total. split; reflexivity.
Defined.

(** ** What the loader leaves alone *)

Lemma filter_length (A : Type) (f : A -> bool) l :
  (List.length (filter f l) <= List.length l)%nat.
Proof.
  induction l as [| x l IH]; simpl; [lia |].
  destruct (f x); simpl; lia.
Qed.

Lemma load_meds_origin `{Pandas} csv r :
  In r (rows (load_meds csv)) ->
  exists r0, In r0 (rows csv)
             /\ MedsCsv.DESCRIPTION r0 = Meds.DESCRIPTION r
             /\ MedsCsv.DISPENSES r0 = Meds.DISPENSES r
             /\ MedsCsv.TOTALCOST r0 = Meds.TOTALCOST r
             /\ MedsCsv.ENCOUNTERCLASS r0 = Meds.ENCOUNTERCLASS r.
Proof.
  unfold load_meds. destruct (has_column "Month" csv); cbn [rows].
  - rewrite filter_In. unfold parsed_rows. rewrite in_map_iff.
    intros [([r0 t] & <- & I) _]. apply in_combine_l in I.
    exists r0. auto.
  - rewrite in_map_iff. intros (r0 & <- & I). exists r0. auto.
Qed.

(** X3. Loading adds no row and rewrites no cell but the dates: each table
    has at most as many rows as its file, and every loaded row carries the
    description, dispenses, cost and department (the medicine, type and
    value) of a row of the file. *)
Theorem loader_rows_come_from_files `{Pandas}
        (meds_csv : frame MedsCsv.row) (afc_csv : frame AfcCsv.row) :
  (List.length (rows (load_meds meds_csv)) <= List.length (rows meds_csv))%nat
  /\ (List.length (rows (load_afc afc_csv)) <= List.length (rows afc_csv))%nat
  /\ (forall r, In r (rows (load_meds meds_csv)) ->
                exists r0, In r0 (rows meds_csv)
                           /\ MedsCsv.DESCRIPTION r0 = Meds.DESCRIPTION r
                           /\ MedsCsv.DISPENSES r0 = Meds.DISPENSES r
                           /\ MedsCsv.TOTALCOST r0 = Meds.TOTALCOST r
                           /\ MedsCsv.ENCOUNTERCLASS r0 = Meds.ENCOUNTERCLASS r)
  /\ (forall r, In r (rows (load_afc afc_csv)) ->
                exists r0, In r0 (rows afc_csv)
                           /\ AfcCsv.Medicine r0 = Afc.Medicine r
                           /\ AfcCsv.Type_ r0 = Afc.Type_ r
                           /\ AfcCsv.Value r0 = Afc.Value r).
Proof.
  split; [| split; [| split]].
  - unfold load_meds. destruct (has_column "Month" meds_csv); cbn [rows].
    + rewrite <- (parsed_rows_length (rows meds_csv)). apply filter_length.
    + rewrite length_map. lia.
  - unfold load_afc. destruct (has_column "Year" afc_csv); cbn [rows].
    + rewrite <- (length_map coerce_year (rows afc_csv)). apply filter_length.
    + rewrite length_map. lia.
  - apply load_meds_origin.
  - apply load_afc_origin.
Qed.

Lemma loader_rows_come_from_files_witness :
  exists r0, In r0 (rows Sample.medication_summary)
             /\ MedsCsv.DESCRIPTION r0 = Some "Insulin"
             /\ MedsCsv.DISPENSES r0 = Some 7.
Proof.
  destruct (loader_rows_come_from_files Sample.medication_summary
                                        Sample.actual_forecast_combined)
    as (_ & _ & Origin & _).
  destruct (Origin (with_year (Sample.med "Insulin" "2022-01-01" 7 "inpatient")
                              (Some {| ts_year := 2022; ts_month := 1;
                                       ts_day := 1 |})))
    as (r0 & I & D & N & _).
  - vm_compute. right. now left.
  - exists r0. auto.
Defined.

(** X4. Loading changes the columns of the medication table by at most one:
    [Year] is there afterwards when the file had [Month] or [Year], and any
    other column is there exactly when the file had it; the forecast table
    keeps the file's columns. So whether the pages find [TOTALCOST] and
    [ENCOUNTERCLASS] is decided by the file alone. *)
Theorem loader_keeps_columns `{Pandas}
        (meds_csv : frame MedsCsv.row) (afc_csv : frame AfcCsv.row) :
  (forall c, has_column c (load_meds meds_csv)
             = has_column c meds_csv
               || (String.eqb c "Year" && has_column "Month" meds_csv))
  /\ (forall c, c <> "Year" ->
                has_column c (load_meds meds_csv) = has_column c meds_csv)
  /\ columns (load_afc afc_csv) = columns afc_csv
  /\ DashboardOverview.has_total_cost (load_meds meds_csv)
     = has_column "TOTALCOST" meds_csv
  /\ ExecutiveSummary.has_total_cost (load_meds meds_csv)
     = has_column "TOTALCOST" meds_csv
  /\ DepartmentUsage.has_encounterclass (load_meds meds_csv)
     = has_column "ENCOUNTERCLASS" meds_csv
  /\ ExecutiveSummary.has_encounterclass (load_meds meds_csv)
     = has_column "ENCOUNTERCLASS" meds_csv.
Proof.
  assert (forall c, c <> "Year" ->
                    has_column c (load_meds meds_csv) = has_column c meds_csv)
    as Other.
  { intros c N. rewrite load_meds_has_column.
    apply String.eqb_neq in N. rewrite N. apply orb_false_r. }
  split; [apply load_meds_has_column |].
  split; [exact Other |].
  split; [apply load_afc_columns |].
  repeat split; apply Other; discriminate.
Qed.

Lemma loader_keeps_columns_witness :
  has_column "ENCOUNTERCLASS" (load_meds Sample.without_departments) = false
  /\ has_column "DISPENSES" (load_meds Sample.without_departments) = true.
Proof.
  destruct (loader_keeps_columns Sample.without_departments
                                 Sample.actual_forecast_combined)
    as (_ & Other & _).
  split; (rewrite Other; [reflexivity | discriminate]).
Defined.

(** ** Page 4: the costliest medicines *)

Section CostFacts.
Context `{Pandas}.
Variable meds : frame Meds.row.

Let costs : list (string * Z) :=
  nargsort (fun p => Some (snd p)) false
    (groupby_sum String.eqb str_leb Meds.DESCRIPTION Meds.TOTALCOST
                 (rows meds)).

Lemma costs_In d s :
  In (d, s) costs <->
  (exists r, In r (rows meds) /\ Meds.DESCRIPTION r = Some d)
  /\ s = spent (rows meds) d.
Proof.
  unfold costs.
  rewrite nargsort_In, groupby_sum_In, groupby_keys_In
    by apply String.eqb_eq.
  unfold spent. now rewrite group_description.
Qed.

Lemma costs_keys_NoDup : NoDup (map fst costs).
Proof.
  eapply Permutation_NoDup.
  - apply Permutation_map, nargsort_Permutation.
  - rewrite groupby_sum_keys. apply groupby_keys_NoDup, String.eqb_eq.
Qed.

Lemma costs_descending : StronglySorted (fun a b => snd b <= snd a) costs.
Proof. apply nargsort_descending_StronglySorted. Qed.
End CostFacts.

(** ** Page 4: what the summary is made of *)





(** ** Page 2: nothing to compare, and what a comparison holds *)

Lemma eq_cell_None c : eq_cell c None = false.
Proof. now destruct c. Qed.

Lemma two_members (A : Type) (a b : A) l :
  In a l -> In b l -> a <> b -> (2 <= List.length l)%nat.
Proof.
  destruct l as [| x [| y l]]; simpl; try lia; try contradiction.
  intros [<- | []] [<- | []] N. now elim N.
Qed.

(** X8. When no medicine has two types the selector offers nothing and
    holds nothing; on a table with its [Medicine], [Type], [Year] and
    [Value] columns the page still runs to its end: the heading names "None"
    and the chart has no bar. That happens exactly when every medicine is
    recorded with one type at most. *)
Theorem forecast_nothing_to_compare `{Pandas} (afc : frame Afc.row) (i : nat) :
  (ForecastingByYear.med_list afc = [] <->
   forall m t1 t2, has_type (rows afc) m t1 -> has_type (rows afc) m t2 ->
                   t1 = t2)
  /\ (ForecastingByYear.med_list afc = [] ->
      ForecastingByYear.selected_medicine afc i = None
      /\ (has_column "Medicine" afc = true ->
          has_column "Type" afc = true ->
          has_column "Year" afc = true ->
          has_column "Value" afc = true ->
          run (ForecastingByYear.render afc i)
          = ([ title "Medicine Forecasting by Year";
               selectbox_widget "Select Medicine" [];
               markdown "### Actual vs Forecast for: **None**";
               plotly_chart [] ],
             Ok tt))).
Proof.
  split.
  - split.
    + intros E m t1 t2 H1 H2.
      destruct (string_dec t1 t2) as [-> | N]; [reflexivity | exfalso].
      assert (In m (ForecastingByYear.med_list afc)) as I
          by (apply med_list_In; eauto).
      rewrite E in I. contradiction.
    + intros One.
      destruct (ForecastingByYear.med_list afc) as [| m l] eqn:E; trivial.
      assert (In m (ForecastingByYear.med_list afc)) as I
          by (rewrite E; now left).
      apply med_list_In in I. destruct I as (t1 & t2 & N & H1 & H2).
      elim N. eauto.
  - intros E.
    assert (ForecastingByYear.selected_medicine afc i = None) as S.
    { unfold ForecastingByYear.selected_medicine, selectbox.
      rewrite E. apply nth_error_nil. }
    split; [exact S |].
    intros M T Y V.
    rewrite forecast_render, M, T, (df_med_Ok _ i Y).
    change (has_column "Value" _) with (has_column "Value" afc).
    rewrite V. unfold ForecastingByYear.heading, ForecastingByYear.chart.
    rewrite S, E. cbn [rows].
    rewrite filter_none by (intros; apply eq_cell_None).
    unfold nargsort. cbn [filter]. rewrite quicksort_nil. reflexivity.
Qed.

Lemma forecast_nothing_to_compare_witness :
  run (ForecastingByYear.render Sample.actuals_only 0)
  = ([ title "Medicine Forecasting by Year";
       selectbox_widget "Select Medicine" [];
       markdown "### Actual vs Forecast for: **None**";
       plotly_chart [] ],
     Ok tt).
Proof.
  destruct (forecast_nothing_to_compare Sample.actuals_only 0)
    as (_ & Empty).
  destruct (Empty eq_refl) as (_ & Page).
  apply Page; reflexivity.
Defined.

(** X9. The comparison of a medicine the selector offers never shows one
    side only: on a table with its [Year] column it has at least two rows,
    all of the selected medicine, and among them two rows of different
    types. *)
Theorem comparison_shows_two_types `{Pandas}
        (afc : frame Afc.row) (i : nat) (m : string) :
  has_column "Year" afc = true ->
  ForecastingByYear.selected_medicine afc i = Some m ->
  exists df,
    ForecastingByYear.df_med afc i = Ok df
    /\ (2 <= List.length (rows df))%nat
    /\ (forall r, In r (rows df) -> Afc.Medicine r = Some m)
    /\ exists r1 r2 t1 t2,
        In r1 (rows df) /\ In r2 (rows df)
        /\ Afc.Type_ r1 = Some t1 /\ Afc.Type_ r2 = Some t2 /\ t1 <> t2.
Proof.
  intros Y S.
  assert (In m (ForecastingByYear.med_list afc)) as I
      by (eapply nth_error_In, S).
  apply med_list_In in I.
  destruct I as (t1 & t2 & N & (r1 & I1 & M1 & T1) & (r2 & I2 & M2 & T2)).
  pose proof (df_med_Ok afc i Y) as D. rewrite S in D.
  eexists. split; [exact D |]. cbn [rows].
  assert (forall r, In r (rows afc) -> Afc.Medicine r = Some m ->
                    In r (nargsort Afc.Year true
                            (filter (fun r => eq_cell (Afc.Medicine r)
                                                      (Some m))
                                    (rows afc)))) as Picked.
  { intros r Ir Mr. apply nargsort_In, filter_In.
    split; [exact Ir | now apply eq_cell_Some]. }
  split; [| split].
  - apply (two_members (a := r1) (b := r2)); auto. congruence.
  - intros r Ir. apply nargsort_In, filter_In in Ir.
    now apply eq_cell_Some.
  - exists r1, r2, t1, t2. auto.
Qed.

Lemma comparison_shows_two_types_witness :
  exists df,
    ForecastingByYear.df_med Sample.both_types 0 = Ok df
    /\ (2 <= List.length (rows df))%nat.
Proof.
  assert (ForecastingByYear.selected_medicine Sample.both_types 0
          = Some "Insulin") as S by (vm_compute; reflexivity).
  destruct (comparison_shows_two_types Sample.both_types 0 eq_refl S)
    as (df & D & L & _).
  exists df. split; [exact D | exact L].
Defined.

(** ** Page 2: the rows of a comparison and the page around them *)

(** X17. On a forecast file with its [Year] column, for the medicine the
    selector holds (one of the list offered), the comparison is computed
    without error; its rows are the rows of the loaded table with that
    medicine, each as often as the table has it and each unchanged, so with
    its type and value; they stand in ascending order of year; and when the
    file also has its [Medicine], [Type] and [Value] columns the page runs
    to its end and shows its title, the selector, a heading naming the
    medicine and a chart of one bar per row, in that order, from its year,
    value and type. *)
Theorem comparison_rows_of_selection `{Pandas}
        (csv : frame AfcCsv.row) (i : nat) (m : string) :
  has_column "Year" csv = true ->
  ForecastingByYear.selected_medicine (load_afc csv) i = Some m ->
  In m (ForecastingByYear.med_list (load_afc csv))
  /\ exists df,
      ForecastingByYear.df_med (load_afc csv) i = Ok df
      /\ Permutation
           (rows df)
           (filter (fun r => eq_cell (Afc.Medicine r) (Some m))
                   (rows (load_afc csv)))
      /\ (forall r, In r (rows df) <->
                    In r (rows (load_afc csv)) /\ Afc.Medicine r = Some m)
      /\ StronglySorted
           (fun a b => exists x y, Afc.Year a = Some x /\ Afc.Year b = Some y
                                   /\ x <= y)
           (rows df)
      /\ (has_column "Medicine" csv = true ->
          has_column "Type" csv = true ->
          has_column "Value" csv = true ->
          run (ForecastingByYear.render (load_afc csv) i)
          = ([ title "Medicine Forecasting by Year";
               selectbox_widget "Select Medicine"
                                (ForecastingByYear.med_list (load_afc csv));
               markdown ("### Actual vs Forecast for: **" ++ m ++ "**");
               plotly_chart
                 (map (fun r => {| bar_x := of_num (Afc.Year r);
                                   bar_y := of_num (Afc.Value r);
                                   bar_color := Some (of_str (Afc.Type_ r)) |})
                      (rows df)) ],
             Ok tt)).
Proof.
  intros Y Sel.
  split.
  { unfold ForecastingByYear.selected_medicine, selectbox in Sel.
    eapply nth_error_In, Sel. }
  assert (has_column "Year" (load_afc csv) = true) as Y'
      by (unfold has_column; now rewrite load_afc_columns).
  pose proof (df_med_Ok (load_afc csv) i Y') as D.
  rewrite Sel in D.
  eexists. split; [exact D |]. cbn [rows].
  split; [symmetry; apply nargsort_Permutation |].
  split; [| split].
  - intros r. rewrite nargsort_In, filter_In, eq_cell_Some. tauto.
  - rewrite nargsort_ascending.
    + eapply StronglySorted_weaken_In; [| apply quicksort_StronglySorted].
      intros a b Ia Ib L.
      assert (forall r,
                 In r (quicksort
                         (fun a => match Afc.Year a with
                                   | Some z => z
                                   | None => 0
                                   end)
                         (filter (fun r => eq_cell (Afc.Medicine r) (Some m))
                                 (rows (load_afc csv)))) ->
                 exists z, Afc.Year r = Some z) as Known.
      { intros r I.
        apply (Permutation_in _ (Permutation_sym
                                   (quicksort_Permutation _ _))) in I.
        apply filter_In in I. destruct I as [I _].
        destruct (loaded_year_in_range _ _ Y I) as (z & E & _). eauto. }
      destruct (Known a Ia) as (x & Ea), (Known b Ib) as (y & Eb).
      exists x, y. cbv beta in L. rewrite Ea, Eb in L. auto.
    + intros r I. apply filter_In in I. destruct I as [I _].
      destruct (loaded_year_in_range _ _ Y I) as (z & E & _).
      now rewrite E.
  - intros M T V.
    assert (forall c, has_column c (load_afc csv) = has_column c csv) as Same
        by (intros c; unfold has_column; now rewrite load_afc_columns).
    rewrite forecast_render, !Same, M, T, D.
    change (has_column "Value" _) with (has_column "Value" (load_afc csv)).
    rewrite Same, V. unfold ForecastingByYear.heading. rewrite Sel.
    reflexivity.
Qed.

Lemma comparison_rows_of_selection_witness :
  In "Insulin" (ForecastingByYear.med_list
                  (load_afc Sample.actual_forecast_combined))
  /\ exists df,
      ForecastingByYear.df_med (load_afc Sample.actual_forecast_combined) 0
      = Ok df
      /\ Permutation
           (rows df)
           (filter (fun r => eq_cell (Afc.Medicine r) (Some "Insulin"))
                   (rows (load_afc Sample.actual_forecast_combined)))
      /\ exists chart,
          run (ForecastingByYear.render
                 (load_afc Sample.actual_forecast_combined) 0)
          = ([ title "Medicine Forecasting by Year";
               selectbox_widget
                 "Select Medicine"
                 (ForecastingByYear.med_list
                    (load_afc Sample.actual_forecast_combined));
               markdown "### Actual vs Forecast for: **Insulin**";
               chart ],
             Ok tt).
Proof.
  assert (has_column "Year" Sample.actual_forecast_combined = true) as Y
      by reflexivity.
  assert (ForecastingByYear.selected_medicine
            (load_afc Sample.actual_forecast_combined) 0 = Some "Insulin")
    as Sel by (vm_compute; reflexivity).
  destruct (comparison_rows_of_selection _ _ Y Sel)
    as (Offered & df & Computed & Same & _ & _ & Page).
  split; [exact Offered |].
  exists df. split; [exact Computed |]. split; [exact Same |].
  eexists. apply Page; reflexivity.
Defined.

(** ** Page 2: the order of the list offered *)

Lemma stable_sort_of_sorted (A : Type) (leb : A -> A -> bool) l :
  StronglySorted (fun a b => leb a b = true) l -> stable_sort leb l = l.
Proof.
  induction 1 as [| x l S IH F]; simpl; [reflexivity |].
  rewrite IH. destruct l as [| y l]; simpl; [reflexivity |].
  inversion F as [| ? ? L _]. now rewrite L.
Qed.

Lemma unique_of_NoDup (A : Type) (eqb : A -> A -> bool) l :
  (forall a b, eqb a b = true <-> a = b) ->
  NoDup l -> unique eqb l = l.
Proof.
  intros E. induction 1 as [| x l N _ IH]; simpl; [reflexivity |].
  rewrite IH. f_equal. apply filter_all.
  intros a I. apply negb_true_iff.
  destruct (eqb x a) eqn:X; trivial.
  apply E in X. subst. contradiction.
Qed.

Lemma map_fst_filter_StronglySorted (A B : Type) (R : A -> A -> Prop)
      (f : A * B -> bool) l :
  StronglySorted R (map fst l) -> StronglySorted R (map fst (filter f l)).
Proof.
  induction l as [| p l IH]; simpl; intros S; [constructor |].
  apply StronglySorted_inv in S. destruct S as [S F].
  destruct (f p); simpl; [| now apply IH].
  constructor; [now apply IH |].
  rewrite Forall_forall in *. intros b I. apply F.
  apply in_map_iff in I. destruct I as (q & <- & I).
  apply filter_In in I. apply in_map. tauto.
Qed.

Lemma map_fst_filter_NoDup (A B : Type) (f : A * B -> bool) l :
  NoDup (map fst l) -> NoDup (map fst (filter f l)).
Proof.
  induction l as [| p l IH]; simpl; intros N; [constructor |].
  inversion N as [| ? ? Np Nl]. subst.
  destruct (f p); simpl; [| now apply IH].
  constructor; [| now apply IH].
  intros I. apply Np.
  apply in_map_iff in I. destruct I as (q & E & I).
  apply filter_In in I. rewrite <- E. apply in_map. tauto.
Qed.

Lemma type_counts_keys_ascending afc :
  StronglySorted (fun a b => str_leb a b = true)
                 (map fst (ForecastingByYear.type_counts afc))
  /\ NoDup (map fst (ForecastingByYear.type_counts afc)).
Proof.
  unfold ForecastingByYear.type_counts, groupby_nunique.
  rewrite map_map. cbn [fst]. rewrite map_id. split.
  - apply stable_sort_StronglySorted;
      [apply str_leb_total | apply str_leb_trans].
  - apply groupby_keys_NoDup, String.eqb_eq.
Qed.

(** X10. The list offered is read off the table of type counts in its own
    order: it is the medicines of the rows with a count of two or more, as
    they stand there. Taking out missing names, removing duplicates and
    sorting change nothing, because the group-by has already dropped the
    nameless rows and put each medicine once, in ascending order. *)
Theorem comparison_list_is_counts_order (afc : frame Afc.row) :
  ForecastingByYear.med_list afc
  = map fst (filter (fun p => 2 <=? snd p) (ForecastingByYear.type_counts afc))
  /\ StronglySorted (fun a b => str_ltb a b = true)
                    (map fst (ForecastingByYear.type_counts afc))
  /\ (forall m n, In (m, n) (ForecastingByYear.type_counts afc) ->
                  (exists r, In r (rows afc) /\ Afc.Medicine r = Some m)
                  /\ 0 <= n
                  /\ (In m (ForecastingByYear.med_list afc) <-> 2 <= n)).
Proof.
  destruct (type_counts_keys_ascending afc) as [S N].
  split; [| split].
  - unfold ForecastingByYear.med_list, ForecastingByYear.valid_meds, sorted.
    rewrite dropna_map_Some.
    rewrite unique_of_NoDup;
      [| apply String.eqb_eq | now apply map_fst_filter_NoDup].
    apply stable_sort_of_sorted. now apply map_fst_filter_StronglySorted.
  - now apply sorted_strict.
  - intros m n I. pose proof I as J. apply type_counts_In in J.
    destruct J as [Row ->].
    split; [exact Row |]. split; [unfold nunique; lia |].
    rewrite med_list_counts. split.
    + intros (n' & I' & L).
      assert (n' = nunique (map Afc.Type_
                                (group String.eqb Afc.Medicine m (rows afc))))
        as <-; [| exact L].
      apply type_counts_In in I'. tauto.
    + intros L. eauto.
Qed.

Lemma comparison_list_is_counts_order_witness :
  ForecastingByYear.type_counts Sample.both_types
  = [("Aspirin", 1); ("Insulin", 2)]
  /\ (In "Insulin" (ForecastingByYear.med_list Sample.both_types) <-> 2 <= 2).
Proof.
  split; [vm_compute; reflexivity |].
  destruct (comparison_list_is_counts_order Sample.both_types)
    as (_ & _ & Counts).
  apply (Counts "Insulin" 2). vm_compute. right. now left.
Defined.

(** ** Page 3: rows of one department with the same dispenses *)

Lemma key_before_trans a b c :
  key_before a b -> key_before b c -> key_before a c.
Proof.
  unfold key_before. intros [L1 | [E1 L1]] [L2 | [E2 L2]].
  - left. eapply str_ltb_trans; eauto.
  - left. now rewrite <- E2.
  - left. now rewrite E1.
  - right. split; [congruence | eapply str_ltb_trans; eauto].
Qed.

Lemma pair_leb_spec a b : pair_leb a b = true <-> key_before a b \/ a = b.
Proof.
  destruct a as [a1 a2], b as [b1 b2]. unfold pair_leb, key_before.
  cbn [fst snd].
  rewrite orb_true_iff, andb_true_iff, String.eqb_eq, str_leb_spec.
  split.
  - intros [L | [-> [L | ->]]]; auto.
  - intros [[L | [-> L]] | E]; auto. inversion E. auto.
Qed.

Lemma pair_leb_total a b : pair_leb a b = false -> pair_leb b a = true.
Proof.
  intros F. apply pair_leb_spec.
  assert (~ (key_before a b \/ a = b)) as N
      by (rewrite <- pair_leb_spec, F; discriminate).
  destruct a as [a1 a2], b as [b1 b2]. unfold key_before in *.
  cbn [fst snd] in *.
  destruct (str_trichotomy a1 b1) as [L | [-> | L]]; [elim N; auto | | auto].
  destruct (str_trichotomy a2 b2) as [L | [-> | L]]; auto.
  elim N. auto.
Qed.

Lemma pair_leb_trans a b c :
  pair_leb a b = true -> pair_leb b c = true -> pair_leb a c = true.
Proof.
  rewrite !pair_leb_spec. intros [L1 | ->] [L2 | ->]; auto.
  left. eapply key_before_trans; eauto.
Qed.

Lemma dept_tie_order_trans a b c :
  dept_tie_order a b -> dept_tie_order b c -> dept_tie_order a c.
Proof.
  unfold dept_tie_order.
  intros [L1 | [E1 T1]] [L2 | [E2 T2]].
  - left. eapply str_ltb_trans; eauto.
  - left. now rewrite <- E2.
  - left. now rewrite E1.
  - right. split; [congruence |].
    destruct T1 as [S1 | [S1 D1]], T2 as [S2 | [S2 D2]];
      [left; lia | left; lia | left; lia |].
    right. split; [lia | eapply str_ltb_trans; eauto].
Qed.

Lemma insert_HdRel (A : Type) (R : A -> A -> Prop) leb y x l :
  R y x -> HdRel R y l -> HdRel R y (insert leb x l).
Proof.
  intros Ryx H. destruct H as [| z l Ryz]; simpl; [now constructor |].
  destruct (leb x z); now constructor.
Qed.

Lemma insert_tie x l :
  Sorted dept_tie_order l ->
  (forall y, In y l -> key_before (fst x) (fst y)) ->
  Sorted dept_tie_order (insert dept_leb x l).
Proof.
  induction 1 as [| y l S IH Hd]; intros Before; simpl.
  - repeat constructor.
  - assert (key_before (fst x) (fst y)) as K by (apply Before; now left).
    destruct (dept_leb x y) eqn:E.
    + constructor; [now constructor |]. constructor.
      apply dept_leb_spec in E. unfold dept_tie_order.
      destruct E as [L | [Eq Le]]; [now left | right].
      split; [exact Eq |].
      destruct (Z_lt_le_dec (snd y) (snd x)) as [Lt | Ge]; [now left |].
      right. split; [lia |].
      destruct K as [L | [_ L]]; [| exact L].
      rewrite Eq, str_ltb_irrefl in L. discriminate.
    + constructor.
      * apply IH. intros z I. apply Before. now right.
      * apply insert_HdRel; [| exact Hd].
        pose proof (dept_leb_total _ _ E) as T. apply dept_leb_spec in T.
        assert (~ dept_order x y) as N
            by (rewrite <- dept_leb_spec, E; discriminate).
        unfold dept_tie_order, dept_order in *.
        destruct T as [L | [Eq Le]]; [now left | right].
        split; [exact Eq |]. left.
        destruct (Z_lt_le_dec (snd x) (snd y)) as [Lt | Ge]; [exact Lt |].
        elim N. right. split; [congruence | exact Ge].
Qed.

Lemma stable_sort_tie l :
  StronglySorted (fun a b => key_before (fst a) (fst b)) l ->
  Sorted dept_tie_order (stable_sort dept_leb l).
Proof.
  induction 1 as [| x l S IH F]; simpl; [constructor |].
  apply insert_tie; [exact IH |].
  intros y I. apply stable_sort_In in I.
  rewrite Forall_forall in F. now apply F.
Qed.

Lemma StronglySorted_map_fst (A B : Type) (R : A -> A -> Prop)
      (l : list (A * B)) :
  StronglySorted R (map fst l) ->
  StronglySorted (fun a b => R (fst a) (fst b)) l.
Proof.
  induction l as [| p l IH]; simpl; intros S; [constructor |].
  apply StronglySorted_inv in S. destruct S as [S F].
  constructor; [now apply IH |].
  rewrite Forall_forall in *. intros q I. apply F. now apply in_map.
Qed.

Lemma grouped_keys_before meds :
  StronglySorted
    (fun a b : string * string * Z => key_before (fst a) (fst b))
    (groupby_sum pair_eqb pair_leb class_and_description Meds.DISPENSES
                 (rows meds)).
Proof.
  apply StronglySorted_map_fst. rewrite groupby_sum_keys.
  pose proof (groupby_keys_NoDup pair_eqb pair_leb class_and_description
                                 pair_eqb_eq (rows meds)) as N.
  pose proof (stable_sort_StronglySorted pair_leb pair_leb_total
                pair_leb_trans
                (unique pair_eqb
                        (dropna (map class_and_description (rows meds)))))
    as S.
  fold (groupby_keys pair_eqb pair_leb class_and_description (rows meds))
    in S.
  revert N S.
  generalize (groupby_keys pair_eqb pair_leb class_and_description
                           (rows meds)).
  intros l N S. induction S as [| x l S IH F]; constructor.
  - apply IH. now inversion N.
  - inversion N as [| ? ? Nx _]. subst.
    rewrite Forall_forall in *. intros b Ib.
    destruct (proj1 (pair_leb_spec x b) (F b Ib)) as [K | ->]; trivial.
    contradiction.
Qed.

(** X11. The order of the department table leaves nothing open: the rows
    stand by department ascending, then by dispenses descending, and rows of
    one department with the same dispenses by medicine ascending. So of two
    rows of the table with the same department and dispenses the earlier has
    the smaller medicine name, also among the first 50 shown. *)
Theorem department_table_ties_by_medicine `{Pandas} (meds : frame Meds.row) :
  StronglySorted dept_tie_order (DepartmentUsage.top_by_dept meds)
  /\ StronglySorted dept_tie_order
                    (head 50 (DepartmentUsage.top_by_dept meds))
  /\ (forall l1 a l2 b l3,
        DepartmentUsage.top_by_dept meds = (l1 ++ a :: l2 ++ b :: l3)%list ->
        fst (fst a) = fst (fst b) -> snd a = snd b ->
        str_ltb (snd (fst a)) (snd (fst b)) = true).
Proof.
  assert (StronglySorted dept_tie_order (DepartmentUsage.top_by_dept meds))
    as S.
  { apply Sorted_StronglySorted.
    - intros a b c. apply dept_tie_order_trans.
    - apply stable_sort_tie, grouped_keys_before. }
  split; [exact S |].
  split; [now apply StronglySorted_firstn |].
  intros l1 a l2 b l3 E Dept Disp.
  rewrite E in S. apply StronglySorted_split in S.
  destruct S as [L | [_ [Lt | [_ L]]]]; [| lia | exact L].
  rewrite Dept, str_ltb_irrefl in L. discriminate.
Qed.

Lemma department_table_ties_by_medicine_witness :
  str_ltb "Aspirin" "Heparin" = true.
Proof.
  destruct (department_table_ties_by_medicine
              {| columns := ["DESCRIPTION"; "DISPENSES"; "ENCOUNTERCLASS"];
                 rows := [ Sample.dispensed_in "inpatient" "Heparin" 5;
                           Sample.dispensed_in "inpatient" "Aspirin" 5 ] |})
    as (_ & _ & Ties).
  apply (Ties [] ("inpatient", "Aspirin", 5) [] ("inpatient", "Heparin", 5) []);
    reflexivity.
Defined.

(** ** Page 3: the sums of the groups add up *)

Lemma wrap64_add_l a b : wrap64 (wrap64 a + b) = wrap64 (a + b).
Proof.
  unfold wrap64. f_equal.
  replace (a + 2 ^ 63) with (a + 2 ^ 63 + 0) by lia.
  replace ((a + 2 ^ 63 + 0) mod 2 ^ 64 - 2 ^ 63 + b + 2 ^ 63)
    with ((a + 2 ^ 63 + 0) mod 2 ^ 64 + b) by lia.
  rewrite Z.add_mod_idemp_l by lia. f_equal. lia.
Qed.

Lemma wrap64_add_r a b : wrap64 (a + wrap64 b) = wrap64 (a + b).
Proof. now rewrite Z.add_comm, wrap64_add_l, Z.add_comm. Qed.

Lemma total_Permutation l l' : Permutation l l' -> total l = total l'.
Proof.
  unfold total. induction 1; simpl; lia.
Qed.

Section GroupTotals.
Variable K : Type.
Variables eqb leb : K -> K -> bool.
Variable key : Meds.row -> option K.
Hypothesis eqb_eq : forall a b, eqb a b = true <-> a = b.

Lemma all_dispensed_either (p q : Meds.row -> bool) l :
  (forall r, p r = true -> q r = true -> False) ->
  all_dispensed (filter (fun r => p r || q r) l)
  = all_dispensed (filter p l) + all_dispensed (filter q l).
Proof.
  intros D. induction l as [| r l IH]; simpl; [reflexivity |].
  destruct (p r) eqn:P, (q r) eqn:Q; simpl; rewrite ?IH.
  - elim (D r P Q).
  - lia.
  - lia.
  - reflexivity.
Qed.

(** Of dispenses that are not negative a part adds up to no more than the
    whole. *)
Lemma all_dispensed_part (f : Meds.row -> bool) l :
  (forall r z, In r l -> Meds.DISPENSES r = Some z -> 0 <= z) ->
  0 <= all_dispensed (filter f l) <= all_dispensed l.
Proof.
  induction l as [| r l IH]; intros P; simpl; [lia |].
  assert (0 <= all_dispensed (filter f l) <= all_dispensed l) as B
      by (apply IH; intros r' z I; apply P; now right).
  assert (0 <= match Meds.DISPENSES r with Some z => z | None => 0 end) as Z0.
  { destruct (Meds.DISPENSES r) as [z |] eqn:E; [| lia].
    apply (P r z); [now left | exact E]. }
  destruct (f r); simpl; lia.
Qed.

(** The rows whose key is one of [ks]. *)
Let keyed (ks : list K) (r : Meds.row) : bool :=
  match key r with
  | Some k => existsb (eqb k) ks
  | None => false
  end.

Lemma keyed_cons k0 ks l :
  ~ In k0 ks ->
  all_dispensed (filter (keyed (k0 :: ks)) l)
  = all_dispensed (group eqb key k0 l) + all_dispensed (filter (keyed ks) l).
Proof using eqb_eq.
  intros N. unfold group. rewrite <- all_dispensed_either.
  - f_equal. apply filter_ext. intros r. unfold keyed.
    now destruct (key r).
  - intros r P Q. unfold keyed in Q.
    destruct (key r) as [k |]; [| discriminate].
    apply eqb_eq in P. subst k0.
    apply existsb_exists in Q. destruct Q as (k' & I & E).
    apply eqb_eq in E. subst k'. contradiction.
Qed.

Lemma groups_total ks l :
  NoDup ks ->
  wrap64 (total (map (fun k => sum (map Meds.DISPENSES (group eqb key k l)))
                     ks))
  = wrap64 (all_dispensed (filter (keyed ks) l)).
Proof using eqb_eq.
  induction 1 as [| k0 ks N0 N IH].
  - simpl. rewrite filter_none; [reflexivity |].
    intros r _. unfold keyed. now destruct (key r).
  - rewrite keyed_cons by exact N0. cbn [map total fold_right].
    fold (total (map (fun k => sum (map Meds.DISPENSES (group eqb key k l)))
                     ks)).
    rewrite sum_of_dispenses, wrap64_add_l.
    rewrite <- wrap64_add_r, IH, wrap64_add_r. reflexivity.
Qed.

Lemma groups_total_exactly ks l :
  (forall r z, In r l -> Meds.DISPENSES r = Some z -> 0 <= z) ->
  is_int64 (all_dispensed l) = true ->
  NoDup ks ->
  total (map (fun k => sum (map Meds.DISPENSES (group eqb key k l))) ks)
  = all_dispensed (filter (keyed ks) l).
Proof using eqb_eq.
  intros P Fit. induction 1 as [| k0 ks N0 N IH].
  - simpl. rewrite filter_none; [reflexivity |].
    intros r _. unfold keyed. now destruct (key r).
  - rewrite keyed_cons by exact N0. cbn [map total fold_right].
    fold (total (map (fun k => sum (map Meds.DISPENSES (group eqb key k l)))
                     ks)).
    rewrite IH, sum_of_dispenses. f_equal.
    apply wrap64_int64.
    pose proof (all_dispensed_part
                  (fun r => match key r with
                            | Some k' => eqb k' k0
                            | None => false
                            end) l P) as B.
    unfold is_int64 in *. fold (group eqb key k0 l) in B.
    apply andb_true_iff in Fit. destruct Fit as [_ U].
    apply Z.ltb_lt in U.
    rewrite andb_true_iff, Z.leb_le, Z.ltb_lt. lia.
Qed.

Lemma keyed_groupby_keys l :
  filter (keyed (groupby_keys eqb leb key l)) l
  = filter (fun r => is_some (key r)) l.
Proof using eqb_eq.
  apply filter_ext_in. intros r I. unfold keyed.
  destruct (key r) as [k |] eqn:E; [| reflexivity]. simpl.
  apply existsb_exists. exists k. split.
  - apply groupby_keys_In; eauto.
  - now apply eqb_eq.
Qed.

Lemma groupby_sum_total l :
  wrap64 (total (map snd (groupby_sum eqb leb key Meds.DISPENSES l)))
  = wrap64 (all_dispensed (filter (fun r => is_some (key r)) l)).
Proof using eqb_eq.
  unfold groupby_sum. rewrite map_map. cbn [snd].
  rewrite groups_total by now apply groupby_keys_NoDup.
  now rewrite keyed_groupby_keys.
Qed.

Lemma groupby_sum_total_exactly l :
  (forall r z, In r l -> Meds.DISPENSES r = Some z -> 0 <= z) ->
  is_int64 (all_dispensed l) = true ->
  total (map snd (groupby_sum eqb leb key Meds.DISPENSES l))
  = all_dispensed (filter (fun r => is_some (key r)) l).
Proof using eqb_eq.
  intros P Fit. unfold groupby_sum. rewrite map_map. cbn [snd].
  rewrite groups_total_exactly by (trivial; now apply groupby_keys_NoDup).
  now rewrite keyed_groupby_keys.
Qed.
End GroupTotals.

(** X12. Grouping loses no dispenses, up to the width of the integers. On a
    [DISPENSES] column of 64-bit integers the sums of the department chart
    add up, in 64 bits, to the dispenses of all rows that have a department,
    and the sums of the whole department-and-medicine table to the dispenses
    of all rows that have both a department and a description; when every
    row has a department the chart adds up, in 64 bits, to the total the
    overview shows. When no dispenses are negative and those of all rows add
    up to a 64-bit integer, the sums add up to the dispenses exactly. *)
Theorem department_sums_add_up `{Pandas} (meds : frame Meds.row) :
  int64_column (map Meds.DISPENSES (rows meds)) = true ->
  wrap64 (total (map snd (DepartmentUsage.dept_summary meds)))
  = wrap64 (all_dispensed
              (filter (fun r => is_some (Meds.ENCOUNTERCLASS r)) (rows meds)))
  /\ wrap64 (total (map snd (DepartmentUsage.top_by_dept meds)))
     = wrap64 (all_dispensed
                 (filter (fun r => is_some (Meds.ENCOUNTERCLASS r)
                                   && is_some (Meds.DESCRIPTION r))
                         (rows meds)))
  /\ ((forall r, In r (rows meds) -> Meds.ENCOUNTERCLASS r <> None) ->
      wrap64 (total (map snd (DepartmentUsage.dept_summary meds)))
      = DashboardOverview.total_dispenses meds)
  /\ ((forall r z, In r (rows meds) -> Meds.DISPENSES r = Some z -> 0 <= z) ->
      is_int64 (all_dispensed (rows meds)) = true ->
      total (map snd (DepartmentUsage.dept_summary meds))
      = all_dispensed
          (filter (fun r => is_some (Meds.ENCOUNTERCLASS r)) (rows meds))
      /\ total (map snd (DepartmentUsage.top_by_dept meds))
         = all_dispensed
             (filter (fun r => is_some (Meds.ENCOUNTERCLASS r)
                               && is_some (Meds.DESCRIPTION r))
                     (rows meds))).
Proof.
  intros _.
  assert (total (map snd (DepartmentUsage.dept_summary meds))
          = total (map snd
                       (groupby_sum String.eqb str_leb Meds.ENCOUNTERCLASS
                                    Meds.DISPENSES (rows meds)))) as Chart.
  { unfold DepartmentUsage.dept_summary. symmetry.
    apply total_Permutation, Permutation_map, nargsort_Permutation. }
  assert (total (map snd (DepartmentUsage.top_by_dept meds))
          = total (map snd
                       (groupby_sum pair_eqb pair_leb class_and_description
                                    Meds.DISPENSES (rows meds)))) as Table.
  { unfold DepartmentUsage.top_by_dept. symmetry.
    apply total_Permutation, Permutation_map, stable_sort_Permutation. }
  assert (filter (fun r => is_some (class_and_description r)) (rows meds)
          = filter (fun r => is_some (Meds.ENCOUNTERCLASS r)
                             && is_some (Meds.DESCRIPTION r)) (rows meds))
    as Both.
  { apply filter_ext. intros r. unfold class_and_description.
    now destruct (Meds.ENCOUNTERCLASS r), (Meds.DESCRIPTION r). }
  rewrite Chart, Table.
  split; [apply groupby_sum_total, String.eqb_eq |].
  split; [rewrite <- Both; apply groupby_sum_total, pair_eqb_eq |].
  split.
  - intros All. rewrite groupby_sum_total by apply String.eqb_eq.
    unfold DashboardOverview.total_dispenses. rewrite sum_of_dispenses.
    rewrite filter_all; [reflexivity |].
    intros r I. specialize (All r I).
    now destruct (Meds.ENCOUNTERCLASS r).
  - intros P Fit. split.
    + apply groupby_sum_total_exactly; trivial. apply String.eqb_eq.
    + rewrite <- Both. apply groupby_sum_total_exactly; trivial.
      apply pair_eqb_eq.
Qed.

Lemma department_sums_add_up_witness :
  total (map snd (DepartmentUsage.dept_summary Sample.seven)) = 38
  /\ DashboardOverview.total_dispenses Sample.seven = 38
  /\ wrap64 (total (map snd (DepartmentUsage.dept_summary
                               Sample.overflowing)))
     = DashboardOverview.total_dispenses Sample.overflowing.
Proof.
  destruct (department_sums_add_up Sample.seven eq_refl)
    as (_ & _ & _ & Exactly).
  destruct (department_sums_add_up Sample.overflowing eq_refl)
    as (_ & _ & Wrapped & _).
  split; [| split].
  - destruct Exactly as [Chart _].
    + intros r z I E. vm_compute in I.
      repeat (destruct I as [<- | I]; [inversion E; subst z; lia |]).
      contradiction.
    + reflexivity.
    + rewrite Chart. reflexivity.
  - vm_compute. reflexivity.
  - apply Wrapped. intros r I. vm_compute in I.
    repeat (destruct I as [<- | I]; [discriminate |]).
    contradiction.
Defined.

(** ** The pages of a table without rows *)

Lemma nargsort_nil `{Pandas} (A : Type) (key : A -> option Z) asc :
  nargsort key asc [] = [].
Proof.
  unfold nargsort. cbn [filter List.rev]. rewrite quicksort_nil.
  now destruct asc.
Qed.

Lemma groupby_sum_nil (R K : Type) (eqb leb : K -> K -> bool)
      (key : R -> option K) val :
  groupby_sum eqb leb key val [] = [].
Proof. reflexivity. Qed.

(** X13. When the medication file has a [Month] column and none of its rows
    falls in 2020..2025, the loaded table has no row. When the file also has
    its [DESCRIPTION] and [DISPENSES] columns the overview runs to its end
    all the same, and its screen is known: 0 dispensed, 0 medicines, a cost
    of "$0" or "N/A" by the presence of [TOTALCOST], and a trend chart
    without bars. The department and cost tables are empty. *)
Theorem pages_when_every_row_is_out_of_range `{Pandas}
        (csv : frame MedsCsv.row) :
  has_column "Month" csv = true ->
  has_column "DESCRIPTION" csv = true ->
  has_column "DISPENSES" csv = true ->
  (forall r, In r (parsed_rows (rows csv)) -> ~ year_in_range (Meds.Year r)) ->
  rows (load_meds csv) = []
  /\ run (DashboardOverview.render (load_meds csv))
     = ([ title "Forecasting Medicine Requirements for a Hospital";
          subheader "Overview of Medicine Usage and Key Metrics";
          metric "Total Medicines Dispensed" "0";
          metric "Unique Medicines" "0";
          metric "Total Cost of Medicines"
                 (if has_column "TOTALCOST" csv then "$0" else "N/A");
          markdown "### Top Medicines Dispensed – 5-Year Trend";
          plotly_chart [] ],
        Ok tt)
  /\ DashboardOverview.top_meds (load_meds csv) = []
  /\ DepartmentUsage.dept_summary (load_meds csv) = []
  /\ DepartmentUsage.top_by_dept (load_meds csv) = []
  /\ ExecutiveSummary.cost_group (load_meds csv) = [].
Proof.
  intros M HS HD Out.
  assert (rows (load_meds csv) = []) as E.
  { rewrite (load_meds_rows _ M). apply filter_none.
    intros r I. destruct (in_range (Meds.Year r)) eqn:R; trivial.
    apply in_range_spec in R. elim (Out r I R). }
  assert (has_column "Year" (load_meds csv) = true) as Y
      by (rewrite load_meds_has_Year, M; reflexivity).
  assert (DashboardOverview.top_meds (load_meds csv) = []) as T.
  { unfold DashboardOverview.top_meds.
    now rewrite E, groupby_sum_nil, nargsort_nil. }
  split; [exact E |].
  split; [| split; [exact T | split; [| split]]].
  - rewrite overview_render, !load_meds_has_column, HS, HD.
    cbn [orb].
    unfold DashboardOverview.page, DashboardOverview.metrics,
      DashboardOverview.total_dispenses, DashboardOverview.unique_meds,
      DashboardOverview.total_cost, DashboardOverview.has_total_cost.
    rewrite (trend_chart _ Y), load_meds_has_column.
    unfold DashboardOverview.meds_top. rewrite E.
    cbn [rows filter map andb String.eqb Ascii.eqb Bool.eqb].
    rewrite orb_false_r.
    destruct (has_column "TOTALCOST" csv); reflexivity.
  - unfold DepartmentUsage.dept_summary.
    now rewrite E, groupby_sum_nil, nargsort_nil.
  - unfold DepartmentUsage.top_by_dept. now rewrite E.
  - unfold ExecutiveSummary.cost_group.
    now rewrite E, groupby_sum_nil, nargsort_nil.
Qed.

Lemma pages_when_every_row_is_out_of_range_witness :
  rows (load_meds Sample.outdated) = []
  /\ run (DashboardOverview.render (load_meds Sample.outdated))
     = ([ title "Forecasting Medicine Requirements for a Hospital";
          subheader "Overview of Medicine Usage and Key Metrics";
          metric "Total Medicines Dispensed" "0";
          metric "Unique Medicines" "0";
          metric "Total Cost of Medicines" "$0";
          markdown "### Top Medicines Dispensed – 5-Year Trend";
          plotly_chart [] ],
        Ok tt).
Proof.
  destruct (pages_when_every_row_is_out_of_range Sample.outdated
              eq_refl eq_refl eq_refl)
    as (Empty & Screen & _).
  - intros r I R. vm_compute in I.
    destruct I as [<- | [<- | []]]; destruct R as (z & E & L);
      [inversion E; subst; lia | discriminate E].
  - split; [exact Empty | exact Screen].
Defined.

(** ** Page 1: a table with five medicines or fewer *)

(** X14. With five distinct medicines or fewer the cut to the five largest
    takes nothing away: [top_meds] holds every medicine of the table, and
    the trend draws every row that has a description. *)
Theorem trend_of_few_medicines `{Pandas} (meds : frame Meds.row) :
  DashboardOverview.unique_meds meds <= 5 ->
  (forall r d, In r (rows meds) -> Meds.DESCRIPTION r = Some d ->
               In d (DashboardOverview.top_meds meds))
  /\ rows (DashboardOverview.meds_top meds)
     = filter (fun r => is_some (Meds.DESCRIPTION r)) (rows meds).
Proof.
  intros Few.
  assert (incl (groupby_keys String.eqb str_leb Meds.DESCRIPTION (rows meds))
               (DashboardOverview.top_meds meds)) as All.
  { apply NoDup_length_incl.
    - apply top_meds_NoDup.
    - pose proof (top_meds_count meds) as C.
      rewrite unique_meds_keys in C, Few. lia.
    - intros d I. apply top_meds_described in I.
      now apply groupby_keys_In; [apply String.eqb_eq |]. }
  assert (forall r d, In r (rows meds) -> Meds.DESCRIPTION r = Some d ->
                      In d (DashboardOverview.top_meds meds)) as Taken.
  { intros r d I E. apply All.
    apply groupby_keys_In; [apply String.eqb_eq | eauto]. }
  split; [exact Taken |].
  unfold DashboardOverview.meds_top. cbn [rows].
  apply filter_ext_in. intros r I.
  destruct (Meds.DESCRIPTION r) as [d |] eqn:E; [| reflexivity].
  cbn [is_some]. apply isin_spec. exists d. split; [reflexivity |].
  now apply (Taken r).
Qed.

Lemma trend_of_few_medicines_witness :
  rows (DashboardOverview.meds_top (load_meds Sample.medication_summary))
  = rows (load_meds Sample.medication_summary).
Proof.
  destruct (trend_of_few_medicines (load_meds Sample.medication_summary))
    as (_ & Rows).
  - vm_compute. discriminate.
  - rewrite Rows. reflexivity.
Defined.

(** ** The loader overwrites the year of a file that has months *)

Lemma combine_map_l (A B C : Type) (h : A -> C) (l : list A) (l' : list B) :
  combine (map h l) l' = map (fun p => (h (fst p), snd p)) (combine l l').
Proof.
  revert l'. induction l as [| a l IH]; intros [| b l']; simpl; trivial.
  now rewrite IH.
Qed.

(** X15. When the medication file has a [Month] column, a [Year] column of
    the file plays no part: the loaded rows are the same whatever years the
    file gives, because the year of every row is taken from its month. *)
Theorem file_years_ignored_with_month `{Pandas}
        (csv : frame MedsCsv.row) (years : MedsCsv.row -> option Z) :
  has_column "Month" csv = true ->
  load_meds
    {| columns := columns csv;
       rows := map (fun r => {| MedsCsv.DESCRIPTION := MedsCsv.DESCRIPTION r;
                                MedsCsv.Month := MedsCsv.Month r;
                                MedsCsv.Year := years r;
                                MedsCsv.DISPENSES := MedsCsv.DISPENSES r;
                                MedsCsv.TOTALCOST := MedsCsv.TOTALCOST r;
                                MedsCsv.ENCOUNTERCLASS :=
                                  MedsCsv.ENCOUNTERCLASS r |})
                   (rows csv) |}
  = load_meds csv.
Proof.
  intros M. unfold load_meds, has_column in *. cbn [columns rows].
  rewrite M. f_equal. f_equal.
  unfold parsed_rows. rewrite map_map. cbn [MedsCsv.Month].
  rewrite combine_map_l, map_map. reflexivity.
Qed.

Lemma file_years_ignored_with_month_witness :
  map Meds.Year
      (rows (load_meds
               {| columns := columns Sample.medication_summary;
                  rows := map (fun r =>
                                 {| MedsCsv.DESCRIPTION := MedsCsv.DESCRIPTION r;
                                    MedsCsv.Month := MedsCsv.Month r;
                                    MedsCsv.Year := Some 1999;
                                    MedsCsv.DISPENSES := MedsCsv.DISPENSES r;
                                    MedsCsv.TOTALCOST := MedsCsv.TOTALCOST r;
                                    MedsCsv.ENCOUNTERCLASS :=
                                      MedsCsv.ENCOUNTERCLASS r |})
                              (rows Sample.medication_summary) |}))
  = [Some 2021; Some 2022; Some 2023].
Proof.
  rewrite (file_years_ignored_with_month Sample.medication_summary
                                         (fun _ => Some 1999) eq_refl).
  reflexivity.
Defined.

(** ** How many rows the cuts keep *)

(** X16. The two cuts keep what there is up to their bound: the department
    table shows as many rows as there are pairs of department and medicine,
    up to 50, and the cost chart as many medicines as the table has, up to
    10; below the bound nothing is cut. *)
Theorem cuts_keep_up_to_their_bound `{Pandas} (meds : frame Meds.row) :
  List.length (head 50 (DepartmentUsage.top_by_dept meds))
  = Nat.min 50 (List.length
                  (groupby_keys pair_eqb pair_leb class_and_description
                                (rows meds)))
  /\ Z.of_nat (List.length (ExecutiveSummary.cost_group meds))
     = Z.min 10 (ExecutiveSummary.unique_meds meds)
  /\ ((List.length (DepartmentUsage.top_by_dept meds) <= 50)%nat ->
      head 50 (DepartmentUsage.top_by_dept meds)
      = DepartmentUsage.top_by_dept meds)
  /\ (ExecutiveSummary.unique_meds meds <= 10 ->
      forall r d, In r (rows meds) -> Meds.DESCRIPTION r = Some d ->
                  In (d, spent (rows meds) d)
                     (ExecutiveSummary.cost_group meds)).
Proof.
  assert (List.length
            (nargsort (fun p => Some (snd p)) false
               (groupby_sum String.eqb str_leb Meds.DESCRIPTION
                            Meds.TOTALCOST (rows meds)))
          = List.length (groupby_keys String.eqb str_leb Meds.DESCRIPTION
                                      (rows meds))) as Ranked.
  { rewrite <- (Permutation_length (nargsort_Permutation _ false _)).
    rewrite <- (groupby_sum_keys String.eqb str_leb Meds.DESCRIPTION
                                 Meds.TOTALCOST (rows meds)).
    now rewrite length_map. }
  assert (ExecutiveSummary.unique_meds meds
          = Z.of_nat (List.length
                        (groupby_keys String.eqb str_leb Meds.DESCRIPTION
                                      (rows meds)))) as Count
      by apply unique_meds_keys.
  split; [| split; [| split]].
  - unfold head, DepartmentUsage.top_by_dept. rewrite length_firstn.
    rewrite <- (Permutation_length (stable_sort_Permutation dept_leb _)).
    rewrite <- (groupby_sum_keys pair_eqb pair_leb class_and_description
                                 Meds.DISPENSES (rows meds)).
    now rewrite length_map.
  - unfold ExecutiveSummary.cost_group, head.
    rewrite length_firstn, Ranked, Count. lia.
  - intros L. unfold head. now apply firstn_all2.
  - intros Few r d I E.
    unfold ExecutiveSummary.cost_group, head.
    rewrite firstn_all2 by (rewrite Ranked; lia).
    apply costs_In. eauto.
Qed.

Lemma cuts_keep_up_to_their_bound_witness :
  In ("Heparin", spent (rows Sample.priced) "Heparin")
     (ExecutiveSummary.cost_group Sample.priced).
Proof.
  destruct (cuts_keep_up_to_their_bound Sample.priced) as (_ & _ & _ & All).
  apply (All ltac:(vm_compute; discriminate)
             (Sample.costing "Heparin" 35 (Some "inpatient"))).
  - vm_compute. do 3 right. now left.
  - reflexivity.
Defined.
